(** * TileStache.Goodies.Providers.Composite: a shallow embedding

    The compositing provider of TileStache renders one tile by painting a
    tree of layers.  This development embeds the Python module
    [Composite.py]: the colour parser [make_color], the numpy arithmetic of
    [blend_images] and [apply_curves_adjustment], and the [Layer] and [Stack]
    renderers.  numpy arrays live in an explicit store, Python exceptions are
    an error result, and float32 arithmetic is the IEEE 754 binary32
    arithmetic of [SpecFloat]. *)

From Stdlib Require Import ZArith QArith Lia Lqa Ascii String Floats.SpecFloat.
From stdpp Require Import base option list gmap strings.

Open Scope Z_scope.

(** ** Python values and exceptions *)

(** Python floats are IEEE 754 binary64 numbers. *)
Definition pyfloat := spec_float.

Module Py64.
Definition prec := 53.
Definition emax := 1024.
Definition of_Z (z : Z) : pyfloat := binary_normalize prec emax z 0 false.
Definition sub : pyfloat -> pyfloat -> pyfloat := SFsub prec emax.
Definition div : pyfloat -> pyfloat -> pyfloat := SFdiv prec emax.
Definition eqb : pyfloat -> pyfloat -> bool := SFeqb.
(** [float(p/q)] for an exact rational: the nearest binary64 number. *)
Definition of_Q (q : Q) : pyfloat :=
  match Qnum q with
  | Z0 => S754_zero false
  | Zpos n =>
      let '(mz, ez, lz) := SFdiv_core_binary prec emax (Zpos n) 0 (Zpos (Qden q)) 0 in
      binary_round_aux prec emax false mz ez lz
  | Zneg n =>
      let '(mz, ez, lz) := SFdiv_core_binary prec emax (Zpos n) 0 (Zpos (Qden q)) 0 in
      binary_round_aux prec emax true mz ez lz
  end.
End Py64.

(** The Python numbers an opacity can be: JSON gives an int or a float. *)
Inductive pynum :=
  | PyInt (z : Z)
  | PyFloat (f : pyfloat).

(** [1 - opacity], evaluated by Python before numpy sees it. *)
Definition py_one_minus (o : pynum) : pynum :=
  match o with
  | PyInt z => PyInt (1 - z)
  | PyFloat f => PyFloat (Py64.sub (Py64.of_Z 1) f)
  end.

(** [opacity == 0]. *)
Definition py_eq_zero (o : pynum) : bool :=
  match o with
  | PyInt z => z =? 0
  | PyFloat f => Py64.eqb f (S754_zero false)
  end.

(** The values [make_color] can be handed: the tests call it with booleans,
    [None], numbers and lists besides strings. *)
Inductive pyvalue :=
  | PyNone
  | PyBool (b : bool)
  | PyNum (n : pynum)
  | PyStr (s : string)
  | PyList (l : list pynum).

(** Python truthiness, as [if self.colorname:] tests it. *)
Definition truthy (v : pyvalue) : bool :=
  match v with
  | PyNone => false
  | PyBool b => b
  | PyNum (PyInt z) => negb (z =? 0)
  | PyNum (PyFloat f) => negb (Py64.eqb f (S754_zero false))
  | PyStr s => negb (String.eqb s "")
  | PyList l => match l with [] => false | _ => true end
  end.

(** Truthiness of an optional name ([None] or a string). *)
Definition truthy_name (n : option string) : bool :=
  match n with
  | None => false
  | Some s => negb (String.eqb s "")
  end.

(** The messages of [KnownUnknown], one constructor per [raise] in the
    module, with the values formatted into the message. *)
Inductive known_unknown :=
  | Color_must_be_a_string (color : pyvalue)
  | Color_must_start_with_hash (color : string)
  | Color_must_have_three_four_six_or_seven_hex_chars (color : string)
  | Color_must_be_made_up_of_valid_hex_chars (color : string)
  | Unrecognized_composite_adjustment (name : string) (args : list Z)
  | Unrecognized_blend_mode (blendmode : string)
  | Cant_specify_src_color_and_mask_together (layername : option string) (colorname : pyvalue) (maskname : option string)
  | Have_to_provide_more_than_just_a_mask (maskname : option string)
  | Have_to_at_least_some_combination (maskname : option string).

(** Python exceptions that can leave the module. *)
Inductive exn :=
  | KnownUnknown (msg : known_unknown)
  | IndexError
  | KeyError (key : string)
  | TypeError
  | ValueError
  | AssertionError
  | SystemError
  | TileError (layer : string).

Inductive result (A : Type) :=
  | Ok (a : A)
  | Err (e : exn).
Arguments Ok {A} a.
Arguments Err {A} e.

Definition rbind {A B} (r : result A) (k : A -> result B) : result B :=
  match r with
  | Ok a => k a
  | Err e => Err e
  end.

Notation "'let?' x := c 'in' k" := (rbind c (fun x => k))
  (at level 10, x pattern, c at level 100, k at level 200).

(** The error classes of the specification, read off the messages. *)
Definition is_InvalidColor (e : exn) : bool :=
  match e with
  | KnownUnknown (Color_must_be_a_string _)
  | KnownUnknown (Color_must_start_with_hash _)
  | KnownUnknown (Color_must_have_three_four_six_or_seven_hex_chars _)
  | KnownUnknown (Color_must_be_made_up_of_valid_hex_chars _) => true
  | _ => false
  end.

Definition is_KnownUnknown (e : exn) : bool :=
  match e with
  | KnownUnknown _ => true
  | _ => false
  end.

(** ** numpy dtypes *)

(** What the arithmetic of the module asks of an array element type.
    [dt_of_num] is numpy's cast of a Python scalar to the dtype of the array
    it meets. *)
Class Dtype (F : Type) := {
  dt_of_num : pynum -> F;
  dt_add : F -> F -> F;
  dt_sub : F -> F -> F;
  dt_mul : F -> F -> F;
  dt_ltb : F -> F -> bool;
  dt_leb : F -> F -> bool;
}.

(** numpy.float32: IEEE 754 binary32, round to nearest even. *)
Definition float32 := spec_float.

Module F32.
Definition prec := 24.
Definition emax := 128.
Definition of_Z (z : Z) : float32 := binary_normalize prec emax z 0 false.
(** A binary64 number rounded to binary32. *)
Definition of_pyfloat (f : pyfloat) : float32 :=
  match f with
  | S754_finite s m e => binary_normalize prec emax (cond_Zopp s (Zpos m)) e s
  | _ => f
  end.
Definition of_num (n : pynum) : float32 :=
  match n with
  | PyInt z => of_Z z
  | PyFloat f => of_pyfloat f
  end.
Definition add : float32 -> float32 -> float32 := SFadd prec emax.
Definition sub : float32 -> float32 -> float32 := SFsub prec emax.
Definition mul : float32 -> float32 -> float32 := SFmul prec emax.
Definition div : float32 -> float32 -> float32 := SFdiv prec emax.
Definition ltb : float32 -> float32 -> bool := SFltb.
Definition leb : float32 -> float32 -> bool := SFleb.
(** [.astype(numpy.ubyte)]: truncation toward zero, the low eight bits of
    the integer; a NaN or an infinity gives 0. *)
Definition to_ubyte (f : float32) : Z :=
  match f with
  | S754_finite s m e =>
      let t := if 0 <=? e then Zpos m * 2 ^ e else Zpos m / 2 ^ (- e) in
      (cond_Zopp s t) mod 256
  | _ => 0
  end.
End F32.

#[export] Instance float32_dtype : Dtype float32 := {
  dt_of_num := F32.of_num;
  dt_add := F32.add;
  dt_sub := F32.sub;
  dt_mul := F32.mul;
  dt_ltb := F32.ltb;
  dt_leb := F32.leb;
}.

(** Exact rational arithmetic, the arithmetic float32 approximates. *)
Definition Q_of_pyfloat (f : pyfloat) : Q :=
  match f with
  | S754_finite s m e =>
      if 0 <=? e then inject_Z (cond_Zopp s (Zpos m) * 2 ^ e)
      else Qmake (cond_Zopp s (Zpos m)) (2 ^ Z.to_pos (- e))
  | _ => 0%Q
  end.

Definition Q_of_num (n : pynum) : Q :=
  match n with
  | PyInt z => inject_Z z
  | PyFloat f => Q_of_pyfloat f
  end.

Definition Qltb (x y : Q) : bool := negb (Qle_bool y x).

#[export] Instance exact_dtype : Dtype Q := {
  dt_of_num := Q_of_num;
  dt_add := Qplus;
  dt_sub := Qminus;
  dt_mul := Qmult;
  dt_ltb := Qltb;
  dt_leb := Qle_bool;
}.

(** ** numpy arrays *)

(** A two-dimensional array: its shape and its cells in row-major order. *)
Record ndarray (F : Type) := mk_ndarray {
  nrows : nat;
  ncols : nat;
  cells : list F;
}.
Arguments mk_ndarray {F} _ _ _.
Arguments nrows {F} _.
Arguments ncols {F} _.
Arguments cells {F} _.

Definition shape {F} (a : ndarray F) : nat * nat := (nrows a, ncols a).

Definition same_shape {F G} (a : ndarray F) (b : ndarray G) : bool :=
  (nrows a =? nrows b)%nat && (ncols a =? ncols b)%nat.

Section Arrays.
Context {F G H : Type}.

(** [numpy.zeros(shape) + x] and [x * numpy.ones(shape)]: a constant array. *)
Definition full (sh : nat * nat) (x : F) : ndarray F :=
  mk_ndarray (fst sh) (snd sh) (replicate (fst sh * snd sh) x).

(** A ufunc with a scalar operand: cell by cell, same shape. *)
Definition arr_map (f : F -> G) (a : ndarray F) : ndarray G :=
  mk_ndarray (nrows a) (ncols a) (map f (cells a)).

(** numpy's broadcasting rule on one axis. *)
Definition bcast_axis (n m : nat) : option nat :=
  if (n =? m)%nat then Some n
  else if (n =? 1)%nat then Some m
  else if (m =? 1)%nat then Some n
  else None.

(** The cells of [a] seen at the broadcast shape [(rows, columns)]: a
    single column is repeated along each row, a single row is repeated
    down the rows. *)
Definition stretch {X} (a : ndarray X) (rows columns : nat) : list X :=
  let wide :=
    if (ncols a =? columns)%nat then cells a
    else concat (map (replicate columns) (cells a)) in
  if (nrows a =? rows)%nat then wide
  else concat (replicate rows wide).

(** A binary ufunc on two arrays; shapes that do not broadcast raise
    ValueError. *)
Definition arr_map2 (f : F -> G -> H) (a : ndarray F) (b : ndarray G) : result (ndarray H) :=
  match bcast_axis (nrows a) (nrows b), bcast_axis (ncols a) (ncols b) with
  | Some r, Some c =>
      Ok (mk_ndarray r c (zip_with f (stretch a r c) (stretch b r c)))
  | _, _ => Err ValueError
  end.

(** [a[mask]]: the cells where the boolean mask holds, as a flat vector;
    a mask of another shape raises IndexError. *)
Definition select (a : ndarray F) (mask : ndarray bool) : result (list F) :=
  if same_shape a mask
  then Ok (map snd (filter (fun p => fst p = true) (zip (cells mask) (cells a))))
  else Err IndexError.

(** Writing the values [vs] in order into the cells where the mask holds. *)
Fixpoint put (mask : list bool) (xs : list F) (vs : list F) : list F :=
  match mask, xs with
  | m :: mask', x :: xs' =>
      if m then
        match vs with
        | v :: vs' => v :: put mask' xs' vs'
        | [] => x :: put mask' xs' []
        end
      else x :: put mask' xs' vs
  | _, _ => xs
  end.

Definition count_true (mask : list bool) : nat :=
  length (filter (fun m => m = true) mask).

(** [a[mask] = vs] in place: the new cells of [a].  A mask of another
    shape raises IndexError, a vector of another length than the number
    of selected cells raises ValueError. *)
Definition assign_masked (a : ndarray F) (mask : ndarray bool) (vs : list F) : result (ndarray F) :=
  if same_shape a mask then
    if (length vs =? count_true (cells mask))%nat
    then Ok (mk_ndarray (nrows a) (ncols a) (put (cells mask) (cells a) vs))
    else Err ValueError
  else Err IndexError.

(** A binary ufunc on two flat vectors. *)
Definition vec_map2 (f : F -> G -> H) (xs : list F) (ys : list G) : result (list H) :=
  if (length xs =? length ys)%nat then Ok (zip_with f xs ys)
  else Err ValueError.
End Arrays.

(** ** The store of arrays *)

(** numpy arrays are mutable objects: names and list slots hold references
    into a store.  [numpy.copy] and every arithmetic expression bound to a
    name allocate a new array; a masked assignment writes in place. *)
Definition loc := positive.

(** A sequence of four channels, as [rgba[0]] .. [rgba[3]]. *)
Record rgba (X : Type) := mk_rgba { ch0 : X; ch1 : X; ch2 : X; ch3 : X }.
Arguments mk_rgba {X} _ _ _ _.
Arguments ch0 {X} _.
Arguments ch1 {X} _.
Arguments ch2 {X} _.
Arguments ch3 {X} _.

(** The indices of [for c in (0, 1, 2)]. *)
Inductive rgb_index := c0 | c1 | c2.

Definition get_ch {X} (c : rgb_index) (r : rgba X) : X :=
  match c with
  | c0 => ch0 r
  | c1 => ch1 r
  | c2 => ch2 r
  end.

Definition set_ch {X} (c : rgb_index) (x : X) (r : rgba X) : rgba X :=
  match c with
  | c0 => mk_rgba x (ch1 r) (ch2 r) (ch3 r)
  | c1 => mk_rgba (ch0 r) x (ch2 r) (ch3 r)
  | c2 => mk_rgba (ch0 r) (ch1 r) x (ch3 r)
  end.

Definition rgba_map {X Y} (f : X -> Y) (r : rgba X) : rgba Y :=
  mk_rgba (f (ch0 r)) (f (ch1 r)) (f (ch2 r)) (f (ch3 r)).

Definition rgba_list {X} (r : rgba X) : list X := [ch0 r; ch1 r; ch2 r; ch3 r].

(** A Python sequence of four array references.  [type(x) is list] tells a
    list from the tuple [apply_curves_adjustment] returns. *)
Record raster := mk_raster { is_list : bool; chans : rgba loc }.

(** The [mask_chan] argument: an RGBA sequence or a single channel. *)
Inductive mask_arg :=
  | MaskSeq (r : raster)
  | MaskChan (l : loc).

(** The store: array objects by reference. *)
Abbreviation heap F := (gmap loc (ndarray F)).

Section Store.
Context {F : Type}.

(** Computations that read and write the store and may raise; the store
    survives an exception. *)
Definition M (A : Type) : Type := heap F -> result A * heap F.

Definition ret {A} (a : A) : M A := fun h => (Ok a, h).

Definition raise {A} (e : exn) : M A := fun h => (Err e, h).

Definition bind {A B} (m : M A) (k : A -> M B) : M B :=
  fun h =>
    match m h with
    | (Ok a, h') => k a h'
    | (Err e, h') => (Err e, h')
    end.

Definition lift {A} (r : result A) : M A := fun h => (r, h).

(** A new array object. *)
Definition alloc (a : ndarray F) : M loc :=
  fun h => let l := fresh (dom h) in (Ok l, <[l := a]> h).

(** Reading through a reference; a reference always points to an object,
    a dangling one is an interpreter fault. *)
Definition load (l : loc) : M (ndarray F) :=
  fun h =>
    match h !! l with
    | Some a => (Ok a, h)
    | None => (Err SystemError, h)
    end.

(** Overwriting the cells of an existing array object. *)
Definition store (l : loc) (a : ndarray F) : M unit :=
  fun h =>
    match h !! l with
    | Some _ => (Ok tt, <[l := a]> h)
    | None => (Err SystemError, h)
    end.
End Store.

Arguments M F A : clear implicits.

Notation "'let*' x := c 'in' k" := (bind c (fun x => k))
  (at level 10, x pattern, c at level 100, k at level 200).

Section Loops.
Context {F : Type}.

(** [for c in (0, 1, 2): body], threading the list [output_rgba]. *)
Definition for_rgb (body : rgb_index -> rgba loc -> M F (rgba loc)) (out : rgba loc) : M F (rgba loc) :=
  let* out := body c0 out in
  let* out := body c1 out in
  body c2 out.

(** [numpy.copy(chan)]. *)
Definition numpy_copy (chan : loc) : M F loc :=
  let* a := load chan in
  alloc a.

(** [[numpy.copy(chan) for chan in rgba]]: a new list of new arrays. *)
Definition copy_all (r : raster) : M F raster :=
  let* o0 := numpy_copy (ch0 (chans r)) in
  let* o1 := numpy_copy (ch1 (chans r)) in
  let* o2 := numpy_copy (ch2 (chans r)) in
  let* o3 := numpy_copy (ch3 (chans r)) in
  ret (mk_raster true (mk_rgba o0 o1 o2 o3)).

(** The array a mask stands for in arithmetic.  A list was replaced by
    its alpha channel; [1 - mask_chan] on a tuple is a TypeError. *)
Definition mask_array (m : mask_arg) : M F (ndarray F) :=
  match m with
  | MaskChan l => load l
  | MaskSeq _ => raise TypeError
  end.
End Loops.

(** ** blend_images *)

Section Blend.
Context {F : Type} `{Dtype F}.

Definition one : F := dt_of_num (PyInt 1).
Definition two : F := dt_of_num (PyInt 2).
Definition half : F := dt_of_num (PyFloat (S754_finite false 4503599627370496 (-53))).

(** [(1 - mask_chan) * bottom_rgba[c] + mask_chan * top_rgba[c]] *)
Definition paste_expr (m b t : ndarray F) : result (ndarray F) :=
  let? e1 := arr_map2 dt_mul (arr_map (dt_sub one) m) b in
  let? e2 := arr_map2 dt_mul m t in
  arr_map2 dt_add e1 e2.

(** [1 - (1 - bottom_rgba[3]) * (1 - intersect_chan)] *)
Definition alpha_expr (b i : ndarray F) : result (ndarray F) :=
  let? e := arr_map2 dt_mul (arr_map (dt_sub one) b) (arr_map (dt_sub one) i) in
  Ok (arr_map (dt_sub one) e).

(** [2 * bottom_rgba[c][dk] * top_rgba[c][dk]] *)
Definition dark_expr (b t : ndarray F) (dk : ndarray bool) : result (list F) :=
  let? sb := select b dk in
  let? st := select t dk in
  vec_map2 dt_mul (map (dt_mul two) sb) st.

(** [1 - 2 * (1 - bottom_rgba[c][lt]) * (1 - top_rgba[c][lt])] *)
Definition light_expr (b t : ndarray F) (lt : ndarray bool) : result (list F) :=
  let? sb := select b lt in
  let? st := select t lt in
  let? e := vec_map2 dt_mul (map (fun x => dt_mul two (dt_sub one x)) sb) (map (dt_sub one) st) in
  Ok (map (dt_sub one) e).

(** [(1 - opacity) * bottom_rgba[c] + opacity * output_rgba[c]] *)
Definition opacity_expr (opacity : pynum) (b o : ndarray F) : result (ndarray F) :=
  arr_map2 dt_add
    (arr_map (dt_mul (dt_of_num (py_one_minus opacity))) b)
    (arr_map (dt_mul (dt_of_num opacity)) o).

Definition blend_images (bottom_rgba top_rgba : raster) (mask_chan : mask_arg)
    (opacity : pynum) (blendmode : option string) : M F raster :=
  let* output_rgba := copy_all bottom_rgba in
  if py_eq_zero opacity then
    (* no-op *)
    ret output_rgba
  else
    let mask_chan :=
      match mask_chan with
      | MaskSeq r => if is_list r then MaskChan (ch3 (chans r)) else mask_chan
      | MaskChan _ => mask_chan
      end in
    let* output :=
      if negb (truthy_name blendmode) then
        (* plain old paste *)
        let* output :=
          for_rgb (fun c output =>
            let* m := mask_array mask_chan in
            let* b := load (get_ch c (chans bottom_rgba)) in
            let* t := load (get_ch c (chans top_rgba)) in
            let* v := lift (paste_expr m b t) in
            let* l := alloc v in
            ret (set_ch c l output)) (chans output_rgba) in
        (* combine all three alphas *)
        let* ta := load (ch3 (chans top_rgba)) in
        let* m := mask_array mask_chan in
        let* i := lift (arr_map2 dt_mul ta m) in
        let* intersect_chan := alloc i in
        let* ba := load (ch3 (chans bottom_rgba)) in
        let* i := load intersect_chan in
        let* v := lift (alpha_expr ba i) in
        let* l := alloc v in
        ret (mk_rgba (ch0 output) (ch1 output) (ch2 output) l)
      else if bool_decide (blendmode = Some "hard light"%string) then
        for_rgb (fun c output =>
          let* t := load (get_ch c (chans top_rgba)) in
          let dk := arr_map (fun x => dt_ltb x half) t in
          let lt := arr_map (fun x => dt_leb half x) t in
          let* b := load (get_ch c (chans bottom_rgba)) in
          let* vs := lift (dark_expr b t dk) in
          let* o := load (get_ch c output) in
          let* o := lift (assign_masked o dk vs) in
          let* _ := store (get_ch c output) o in
          let* b := load (get_ch c (chans bottom_rgba)) in
          let* t := load (get_ch c (chans top_rgba)) in
          let* vs := lift (light_expr b t lt) in
          let* o := load (get_ch c output) in
          let* o := lift (assign_masked o lt vs) in
          let* _ := store (get_ch c output) o in
          ret output) (chans output_rgba)
      else
        raise (KnownUnknown (Unrecognized_blend_mode (default ""%string blendmode))) in
    let* output :=
      for_rgb (fun c output =>
        let* b := load (get_ch c (chans bottom_rgba)) in
        let* o := load (get_ch c output) in
        let* v := lift (opacity_expr opacity b o) in
        let* l := alloc v in
        ret (set_ch c l output)) output in
    ret (mk_raster true output).
End Blend.

(** ** make_color *)

Section Chars.
Local Open Scope char_scope.

(** The code of a character. *)
Definition ord (c : ascii) : Z := Z.of_N (N_of_ascii c).

(** C's [isspace], which [int()] skips around the number: the blank and
    the control characters 9 to 13. *)
Definition is_space (c : ascii) : bool :=
  ((ord c =? 32) || ((9 <=? ord c) && (ord c <=? 13)))%Z.

(** The value of a hexadecimal digit: 0-9, a-f, A-F. *)
Definition hex_digit (c : ascii) : option Z :=
  let n := ord c in
  if ((48 <=? n) && (n <=? 57))%Z then Some (n - 48)
  else if ((97 <=? n) && (n <=? 102))%Z then Some (n - 87)
  else if ((65 <=? n) && (n <=? 70))%Z then Some (n - 55)
  else None.

Definition is_hex (c : ascii) : bool :=
  match hex_digit c with Some _ => true | None => false end.

Fixpoint skip_space (s : list ascii) : list ascii :=
  match s with
  | c :: s' => if is_space c then skip_space s' else s
  | [] => []
  end.

(** The leading run of hexadecimal digits, accumulated in base 16, and
    what follows it. *)
Fixpoint hex_run (acc : Z) (s : list ascii) : Z * list ascii :=
  match s with
  | c :: s' =>
      match hex_digit c with
      | Some d => hex_run (16 * acc + d) s'
      | None => (acc, s)
      end
  | [] => (acc, [])
  end.

(** Python 2's [int(s, 16)] on a byte string: blanks, an optional sign,
    an optional [0x] that digits follow, at least one hexadecimal digit,
    blanks.  [None] is ValueError. *)
Definition int16 (s : list ascii) : option Z :=
  let s := skip_space s in
  let '(neg, s) :=
    match s with
    | c :: s' =>
        if Ascii.eqb c "-" then (true, s')
        else if Ascii.eqb c "+" then (false, s')
        else (false, s)
    | [] => (false, s)
    end in
  let s := skip_space s in
  let s :=
    match s with
    | z :: x :: d :: s' =>
        if Ascii.eqb z "0" && (Ascii.eqb x "x" || Ascii.eqb x "X") && is_hex d
        then d :: s' else s
    | _ => s
    end in
  match s with
  | d :: _ =>
      if is_hex d then
        let '(n, rest) := hex_run 0 s in
        match skip_space rest with
        | [] => Some (if neg then - n else n)
        | _ => None
        end
      else None
  | [] => None
  end.
End Chars.

(** [color[i:j]] *)
Definition slice {X} (i j : nat) (s : list X) : list X := take (j - i) (drop i s).

(** [''.join([color[i] for i in indices])], for indices inside the string. *)
Definition pick (indices : list nat) (s : list ascii) : list ascii :=
  omap (fun i => s !! i) indices.

Definition make_color (color : pyvalue) : result (rgba Z) :=
  match color with
  | PyStr text =>
      let color := list_ascii_of_string text in
      match color with
      | [] => Err IndexError
      | first :: _ =>
          if negb (Ascii.eqb first "#") then
            Err (KnownUnknown (Color_must_start_with_hash text))
          else if negb (bool_decide (length color ∈ [4; 5; 7; 9]%nat)) then
            Err (KnownUnknown (Color_must_have_three_four_six_or_seven_hex_chars text))
          else
            let color :=
              if (length color =? 4)%nat then pick [0; 1; 1; 2; 2; 3; 3]%nat color
              else if (length color =? 5)%nat then pick [0; 1; 1; 2; 2; 3; 3; 4; 4]%nat color
              else color in
            match int16 (slice 1 3 color), int16 (slice 3 5 color), int16 (slice 5 7 color),
                  (if (length color =? 7)%nat then Some 255 else int16 (slice 7 9 color)) with
            | Some r, Some g, Some b, Some a => Ok (mk_rgba r g b a)
            | _, _, _, _ =>
                Err (KnownUnknown (Color_must_be_made_up_of_valid_hex_chars (string_of_list_ascii color)))
            end
      end
  | _ => Err (KnownUnknown (Color_must_be_a_string color))
  end.

(** An old name for [make_color]. *)
Definition makeColor (color : pyvalue) : result (rgba Z) := make_color color.

(** ** PIL images *)

Definition ubyte := Byte.byte.

Definition Z_of_ubyte (b : ubyte) : Z := Z.of_N (Byte.to_N b).

(** Storing an integer into eight bits. *)
Definition ubyte_of_Z (z : Z) : ubyte :=
  match Byte.of_N (Z.to_N (z mod 256)) with
  | Some b => b
  | None => Byte.x00
  end.

(** A mode 'RGBA' image: its size (width, height) and its pixels, row by
    row. *)
Record image := mk_image {
  im_size : nat * nat;
  im_pixels : list (rgba ubyte);
}.

(** A mode 'L' image. *)
Record image_L := mk_image_L {
  band_size : nat * nat;
  band_pixels : list ubyte;
}.

(** [PIL.Image.new('RGBA', size, color)] *)
Definition PIL_new (size : nat * nat) (color : rgba ubyte) : image :=
  mk_image size (replicate (fst size * snd size) color).

Definition transparent : rgba ubyte := mk_rgba Byte.x00 Byte.x00 Byte.x00 Byte.x00.

(** [im.split()] *)
Definition split (im : image) : rgba image_L :=
  mk_rgba (mk_image_L (im_size im) (map ch0 (im_pixels im)))
          (mk_image_L (im_size im) (map ch1 (im_pixels im)))
          (mk_image_L (im_size im) (map ch2 (im_pixels im)))
          (mk_image_L (im_size im) (map ch3 (im_pixels im))).

Fixpoint zip4 {X} (r g b a : list X) : list (rgba X) :=
  match r, g, b, a with
  | x :: r', y :: g', z :: b', w :: a' => mk_rgba x y z w :: zip4 r' g' b' a'
  | _, _, _, _ => []
  end.

(** [PIL.Image.merge('RGBA', bands)]: the bands must agree in size. *)
Definition merge (bands : rgba image_L) : result image :=
  let size := band_size (ch0 bands) in
  if bool_decide (band_size (ch1 bands) = size /\ band_size (ch2 bands) = size
                  /\ band_size (ch3 bands) = size)
  then Ok (mk_image size (zip4 (band_pixels (ch0 bands)) (band_pixels (ch1 bands))
                               (band_pixels (ch2 bands)) (band_pixels (ch3 bands))))
  else Err ValueError.

(** PIL's integer blend of two bytes under a mask byte (libImaging,
    Paste.c): [MULDIV255(in1, 255 - mask) + MULDIV255(in2, mask)]. *)
Definition MULDIV255 (a b : Z) : Z :=
  let tmp := a * b + 128 in
  Z.shiftr (Z.shiftr tmp 8 + tmp) 8.

Definition BLEND (mask in1 in2 : ubyte) : ubyte :=
  ubyte_of_Z (MULDIV255 (Z_of_ubyte in1) (255 - Z_of_ubyte mask)
              + MULDIV255 (Z_of_ubyte in2) (Z_of_ubyte mask)).

Definition blend_pixel (mask : ubyte) (out inp : rgba ubyte) : rgba ubyte :=
  mk_rgba (BLEND mask (ch0 out) (ch0 inp)) (BLEND mask (ch1 out) (ch1 inp))
          (BLEND mask (ch2 out) (ch2 inp)) (BLEND mask (ch3 out) (ch3 inp)).

(** [dst.paste(im, (0, 0), mask)] with an RGBA mask of the size of [im]:
    inside the box of [im], clipped to [dst], every pixel is blended under
    the alpha band of the mask; the rest of [dst] stays. *)
Definition paste (dst im mask : image) : image :=
  let w := fst (im_size dst) in
  let w' := fst (im_size im) in
  let h' := snd (im_size im) in
  mk_image (im_size dst)
    (imap (fun i out =>
       let x := (i mod w)%nat in
       let y := (i / w)%nat in
       if (x <? w')%nat && (y <? h')%nat then
         match im_pixels im !! (y * w' + x)%nat, im_pixels mask !! (y * w' + x)%nat with
         | Some inp, Some m => blend_pixel (ch3 m) out inp
         | _, _ => out
         end
       else out) (im_pixels dst)).

(** ** Between images and arrays *)

(** [_img2arr]: the bytes of a mode 'L' image as a height by width array;
    [numpy.reshape] refuses another number of bytes. *)
Definition _img2arr (im : image_L) : result (ndarray ubyte) :=
  let w := fst (band_size im) in
  let h := snd (band_size im) in
  if (length (band_pixels im) =? h * w)%nat
  then Ok (mk_ndarray h w (band_pixels im))
  else Err ValueError.

(** [_arr2img]: [PIL.Image.fromstring] refuses another number of bytes
    than the size asks. *)
Definition _arr2img (ar : ndarray ubyte) : result image_L :=
  if (length (cells ar) =? ncols ar * nrows ar)%nat
  then Ok (mk_image_L (ncols ar, nrows ar) (cells ar))
  else Err ValueError.

(** [.astype(numpy.float32) / 255.0] *)
Definition unit_float (b : ubyte) : float32 :=
  F32.div (F32.of_Z (Z_of_ubyte b)) (F32.of_pyfloat (Py64.of_Z 255)).

(** [(band * 255.0).astype(numpy.ubyte)] *)
Definition quantize (x : float32) : ubyte :=
  ubyte_of_Z (F32.to_ubyte (F32.mul x (F32.of_pyfloat (Py64.of_Z 255)))).

(** [_img2rgba]: a list of four new float arrays. *)
Definition _img2rgba (im : image) : M float32 raster :=
  let bands := split im in
  let* r := lift (_img2arr (ch0 bands)) in
  let* r := alloc (arr_map unit_float r) in
  let* g := lift (_img2arr (ch1 bands)) in
  let* g := alloc (arr_map unit_float g) in
  let* b := lift (_img2arr (ch2 bands)) in
  let* b := alloc (arr_map unit_float b) in
  let* a := lift (_img2arr (ch3 bands)) in
  let* a := alloc (arr_map unit_float a) in
  ret (mk_raster true (mk_rgba r g b a)).

(** [_rgba2img] *)
Definition _rgba2img (rgba : raster) : M float32 image :=
  if negb (is_list rgba) then raise AssertionError
  else
    let* r := load (ch0 (chans rgba)) in
    let* r := lift (_arr2img (arr_map quantize r)) in
    let* g := load (ch1 (chans rgba)) in
    let* g := lift (_arr2img (arr_map quantize g)) in
    let* b := load (ch2 (chans rgba)) in
    let* b := lift (_arr2img (arr_map quantize b)) in
    let* a := load (ch3 (chans rgba)) in
    let* a := lift (_arr2img (arr_map quantize a)) in
    lift (merge (mk_rgba r g b a)).

(** ** Adjustments *)

(** sympy.solve on the three equations
    [a*x0**2 + b*x0 + c = 0], [a*x1**2 + b*x1 + c = 0.5] and
    [a*x2**2 + b*x2 + c = 1] in the unknowns a, b, c (an external solver,
    modelled by its result): the solution when there is exactly one, and no
    binding for a, b and c when two of the abscissas coincide, where the
    equations contradict each other. *)
Definition sympy_solve (x0 x1 x2 : Q) : option (Q * Q * Q) :=
  if Qeq_bool x0 x1 || Qeq_bool x0 x2 || Qeq_bool x1 x2 then None
  else
    let d1 := ((x1 - x0) * (x1 - x2))%Q in
    let d2 := ((x2 - x0) * (x2 - x1))%Q in
    Some ((1 # 2) / d1 + 1 / d2,
          - ((1 # 2) * (x0 + x2) / d1) - (x0 + x1) / d2,
          (1 # 2) * (x0 * x2) / d1 + (x0 * x1) / d2)%Q.

(** [black / 255.0] *)
Definition normalized (k : Z) : pyfloat := Py64.div (Py64.of_Z k) (Py64.of_Z 255).

(** [float(co[n]) * numpy.ones(shape, numpy.float32)] *)
Definition coefficient (sh : nat * nat) (co : Q) : ndarray float32 :=
  full sh (F32.mul (F32.of_pyfloat (Py64.of_Q co)) (F32.of_Z 1)).

(** [a * red**2 + b * red + c] *)
Definition curve_expr (a b c x : ndarray float32) : result (ndarray float32) :=
  let? e1 := arr_map2 F32.mul a (arr_map (fun v => F32.mul v v) x) in
  let? e2 := arr_map2 F32.mul b x in
  let? e3 := arr_map2 F32.add e1 e2 in
  arr_map2 F32.add e3 c.

Definition apply_curves_adjustment (rgba : raster) (black grey white : Z) : M float32 raster :=
  (* knowns *)
  let black := normalized black in
  let grey := normalized grey in
  let white := normalized white in
  match sympy_solve (Q_of_pyfloat black) (Q_of_pyfloat grey) (Q_of_pyfloat white) with
  | None =>
      (* co[n] on a result without bindings *)
      raise TypeError
  | Some (a, b, c) =>
      (* arrays for each coefficient *)
      let* red := load (ch0 (chans rgba)) in
      let* a := alloc (coefficient (shape red) a) in
      let* b := alloc (coefficient (shape red) b) in
      let* c := alloc (coefficient (shape red) c) in
      (* arithmetic *)
      let* va := load a in
      let* vb := load b in
      let* vc := load c in
      let* x := load (ch0 (chans rgba)) in
      let* v := lift (curve_expr va vb vc x) in
      let* red := alloc v in
      let* x := load (ch1 (chans rgba)) in
      let* v := lift (curve_expr va vb vc x) in
      let* green := alloc v in
      let* x := load (ch2 (chans rgba)) in
      let* v := lift (curve_expr va vb vc x) in
      let* blue := alloc v in
      ret (mk_raster false (mk_rgba red green blue (ch3 (chans rgba))))
  end.

Fixpoint apply_each (rgba : raster) (adjustments : list (string * list Z)) : M float32 raster :=
  match adjustments with
  | [] => ret rgba
  | (name, args) :: rest =>
      if String.eqb name "curves" then
        match args with
        | [black; grey; white] =>
            let* rgba := apply_curves_adjustment rgba black grey white in
            apply_each rgba rest
        | _ => raise TypeError
        end
      else raise (KnownUnknown (Unrecognized_composite_adjustment name args))
  end.

Definition apply_adjustments (rgba : raster) (adjustments : option (list (string * list Z))) : M float32 raster :=
  match adjustments with
  | None => ret rgba
  | Some l => apply_each rgba l
  end.

(** ** Layers and stacks *)

(** A tile coordinate (ModestMaps.Core.Coordinate). *)
Record Coordinate := mk_Coordinate { row : Z; column : Z; zoom : Z }.

(** A configured TileStache layer, seen through what [Layer.render] does
    with it: [TileStache.getTile(layer, coord, 'png')] followed by
    [PIL.Image.open(StringIO(body)).convert(mode)], for the modes 'RGBA' and
    'L'.  Fetching and decoding are external and may raise. *)
Record tile_layer := mk_tile_layer {
  getTile_RGBA : Coordinate -> result image;
  getTile_L : Coordinate -> result image_L;
}.

(** [config.layers], a dictionary of layers by name. *)
Definition Configuration := gmap string tile_layer.

(** [config.layers[name]] *)
Definition layers_getitem (config : Configuration) (name : string) : result tile_layer :=
  match config !! name with
  | Some l => Ok l
  | None => Err (KeyError name)
  end.

(** The attributes of a [Layer] object. *)
Record layer := mk_layer {
  layername : option string;
  colorname : pyvalue;
  maskname : option string;
  opacity : pynum;
  blendmode : option string;
  adjustments : option (list (string * list Z));
}.

(** A stack is a list of layers and stacks. *)
#[warnings="-register-all"] Inductive node :=
  | Layer (self : layer)
  | Stack (layers : list node).

(** [numpy.zeros(shape, numpy.float32) + band/255.0] *)
Definition color_band (sh : nat * nat) (band : Z) : ndarray float32 :=
  arr_map (fun z => F32.add z (F32.of_pyfloat (Py64.div (Py64.of_Z band) (Py64.of_Z 255))))
          (full sh (S754_zero false)).

Module Layer.
(** What [render] has bound when it reaches the combination of src, color
    and mask: the arrays of the input image, and those of the source
    layer, of the colour and of the mask where they are given. *)
Record resolved := mk_resolved {
  output_of : raster;
  layer_of : option raster;
  color_of : option raster;
  mask_of : option loc;
}.

(** The statements of [render] up to the combination: fetching the source
    and the mask, parsing the colour, adjusting the source. *)
Definition resolve (self : layer) (config : Configuration) (input_img : image)
    (coord : Coordinate) : M float32 resolved :=
  let* output_rgba := _img2rgba input_img in
  let* layer_rgba :=
    if truthy_name (layername self) then
      let* layer := lift (layers_getitem config (default ""%string (layername self))) in
      let* layer_img := lift (getTile_RGBA layer coord) in
      let* layer_rgba := _img2rgba layer_img in
      ret (Some layer_rgba)
    else ret None in
  let* mask_chan :=
    if truthy_name (maskname self) then
      let* layer := lift (layers_getitem config (default ""%string (maskname self))) in
      let* mask_img := lift (getTile_L layer coord) in
      let* arr := lift (_img2arr mask_img) in
      let* mask_chan := alloc (arr_map unit_float arr) in
      ret (Some mask_chan)
    else ret None in
  let* color_rgba :=
    if truthy (colorname self) then
      let* color := lift (make_color (colorname self)) in
      let* o := load (ch0 (chans output_rgba)) in
      let* r := alloc (color_band (shape o) (ch0 color)) in
      let* g := alloc (color_band (shape o) (ch1 color)) in
      let* b := alloc (color_band (shape o) (ch2 color)) in
      let* a := alloc (color_band (shape o) (ch3 color)) in
      ret (Some (mk_raster true (mk_rgba r g b a)))
    else ret None in
  let* layer_rgba :=
    match layer_rgba with
    | Some layer_rgba =>
        let* layer_rgba := apply_adjustments layer_rgba (adjustments self) in
        ret (Some layer_rgba)
    | None => ret None
    end in
  ret (mk_resolved output_rgba layer_rgba color_rgba mask_chan).

(** The combination: the chain of [if has_layer and has_color and
    has_mask: ... elif ...], where a name is bound exactly when its flag
    is set. *)
Definition combine (self : layer) (x : resolved) : M float32 raster :=
  let output_rgba := output_of x in
  match layer_of x, color_of x, mask_of x with
  | Some _, Some _, Some _ =>
      raise (KnownUnknown (Cant_specify_src_color_and_mask_together
                             (layername self) (colorname self) (maskname self)))
  | Some layer_rgba, Some color_rgba, None =>
      let* output_rgba :=
        blend_images output_rgba color_rgba (MaskSeq color_rgba) (opacity self) (blendmode self) in
      blend_images output_rgba layer_rgba (MaskSeq layer_rgba) (opacity self) (blendmode self)
  | Some layer_rgba, None, Some mask_chan =>
      (* need to combine the masks here *)
      let* m := load mask_chan in
      let* z0 := alloc (full (shape m) (S754_zero false)) in
      let* z1 := alloc (full (shape m) (S754_zero false)) in
      let* z2 := alloc (full (shape m) (S754_zero false)) in
      let* z3 := alloc (full (shape m) (S754_zero false)) in
      let layermask_rgba := mk_raster true (mk_rgba z0 z1 z2 z3) in
      let* layermask_rgba :=
        blend_images layermask_rgba layer_rgba (MaskChan mask_chan) (PyInt 1) None in
      blend_images output_rgba layermask_rgba (MaskSeq layermask_rgba) (opacity self) (blendmode self)
  | None, Some color_rgba, Some mask_chan =>
      blend_images output_rgba color_rgba (MaskChan mask_chan) (opacity self) (blendmode self)
  | Some layer_rgba, None, None =>
      blend_images output_rgba layer_rgba (MaskSeq layer_rgba) (opacity self) (blendmode self)
  | None, Some color_rgba, None =>
      blend_images output_rgba color_rgba (MaskSeq color_rgba) (opacity self) (blendmode self)
  | None, None, Some _ =>
      raise (KnownUnknown (Have_to_provide_more_than_just_a_mask (maskname self)))
  | None, None, None =>
      raise (KnownUnknown (Have_to_at_least_some_combination (maskname self)))
  end.

Definition render (self : layer) (config : Configuration) (input_img : image)
    (coord : Coordinate) : M float32 image :=
  let* x := resolve self config input_img coord in
  let* output_rgba := combine self x in
  _rgba2img output_rgba.
End Layer.

(** [node.render(config, input_img, coord)], for a layer or a stack. *)
Fixpoint render (self : node) (config : Configuration) (input_img : image)
    (coord : Coordinate) : M float32 image :=
  match self with
  | Layer l => Layer.render l config input_img coord
  | Stack layers =>
      let stack_img := PIL_new (im_size input_img) transparent in
      let* stack_img :=
        (fix each (layers : list node) (stack_img : image) : M float32 image :=
           match layers with
           | [] => ret stack_img
           | layer :: rest =>
               let* stack_img := render layer config stack_img coord in
               each rest stack_img
           end) layers stack_img in
      let output_img := input_img in
      ret (paste output_img stack_img stack_img)
  end.

Module Stack.
Definition render (layers : list node) (config : Configuration) (input_img : image)
    (coord : Coordinate) : M float32 image :=
  render (Stack layers) config input_img coord.
End Stack.

(** [Provider.renderTile]: the stack painted on a transparent image. *)
Definition renderTile (stack : node) (config : Configuration) (width height : nat)
    (coord : Coordinate) : M float32 image :=
  render stack config (PIL_new (width, height) transparent) coord.

(** ** What blend_images computes *)

Section BlendValue.
Context {F : Type} `{Dtype F}.

(** The store [h] holds the arrays [V] at the four references [r]. *)
Definition holds (h : heap F) (r : rgba loc) (V : rgba (ndarray F)) : Prop :=
  h !! ch0 r = Some (ch0 V) /\ h !! ch1 r = Some (ch1 V)
  /\ h !! ch2 r = Some (ch2 V) /\ h !! ch3 r = Some (ch3 V).

(** The mask argument denotes, once a list is replaced by its alpha
    channel, an array ([Some]) or a tuple ([None]). *)
Definition mask_holds (h : heap F) (m : mask_arg) (mv : option (ndarray F)) : Prop :=
  match m with
  | MaskChan l => exists a, h !! l = Some a /\ mv = Some a
  | MaskSeq r =>
      if is_list r then exists a, h !! ch3 (chans r) = Some a /\ mv = Some a
      else mv = None
  end.

(** None of the four references exists in the store. *)
Definition fresh_in (h : heap F) (r : rgba loc) : Prop :=
  h !! ch0 r = None /\ h !! ch1 r = None /\ h !! ch2 r = None /\ h !! ch3 r = None.

(** The two masked assignments of the hard light branch on one channel,
    starting from the copy of the bottom channel. *)
Definition hard_light_expr (b t : ndarray F) : result (ndarray F) :=
  let dk := arr_map (fun x => dt_ltb x half) t in
  let lt := arr_map (fun x => dt_leb half x) t in
  let? vs := dark_expr b t dk in
  let? o := assign_masked b dk vs in
  let? vs := light_expr b t lt in
  assign_masked o lt vs.

Definition mask_value (mv : option (ndarray F)) : result (ndarray F) :=
  match mv with
  | Some m => Ok m
  | None => Err TypeError
  end.

(** The arrays [blend_images] returns, as a function of the arrays it is
    given: the value-level reading of the statements of [blend_images], in
    their order. *)
Definition blend_value (B T : rgba (ndarray F)) (mv : option (ndarray F))
    (opacity : pynum) (blendmode : option string) : result (rgba (ndarray F)) :=
  if py_eq_zero opacity then Ok B
  else
    let? o :=
      if negb (truthy_name blendmode) then
        let? m := mask_value mv in
        let? o0 := paste_expr m (ch0 B) (ch0 T) in
        let? o1 := paste_expr m (ch1 B) (ch1 T) in
        let? o2 := paste_expr m (ch2 B) (ch2 T) in
        let? i := arr_map2 dt_mul (ch3 T) m in
        let? a := alpha_expr (ch3 B) i in
        Ok (mk_rgba o0 o1 o2 a)
      else if bool_decide (blendmode = Some "hard light"%string) then
        let? o0 := hard_light_expr (ch0 B) (ch0 T) in
        let? o1 := hard_light_expr (ch1 B) (ch1 T) in
        let? o2 := hard_light_expr (ch2 B) (ch2 T) in
        Ok (mk_rgba o0 o1 o2 (ch3 B))
      else Err (KnownUnknown (Unrecognized_blend_mode (default ""%string blendmode))) in
    let? f0 := opacity_expr opacity (ch0 B) (ch0 o) in
    let? f1 := opacity_expr opacity (ch1 B) (ch1 o) in
    let? f2 := opacity_expr opacity (ch2 B) (ch2 o) in
    Ok (mk_rgba f0 f1 f2 (ch3 o)).

(** The outcome of a computation started in a store satisfies [Q]. *)
Definition wp {A} (m : M F A) (h : heap F) (Q : result A -> heap F -> Prop) : Prop :=
  Q (m h).1 (m h).2.

(** The outcome of [blend_images] started in the store [h], where its
    arguments denote [B], [T] and [mv]: the old store is part of the new
    one, and the result is the one of [blend_value], held by four new,
    distinct array objects, or its exception. *)
Definition blend_post (h : heap F) (B T : rgba (ndarray F)) (mv : option (ndarray F))
    (opacity : pynum) (blendmode : option string) (r : result raster) (h' : heap F) : Prop :=
  h ⊆ h' /\
  match blend_value B T mv opacity blendmode with
  | Ok V => exists out, r = Ok (mk_raster true out) /\ holds h' out V
                        /\ fresh_in h out /\ NoDup (rgba_list out)
  | Err e => r = Err e
  end.
End BlendValue.

(** ** Vocabulary of the statements *)

(** The colour string [#] followed by the given characters. *)
Definition hash_color (digits : list ascii) : pyvalue :=
  PyStr (string_of_list_ascii ("#"%char :: digits)).

Definition is_byte (z : Z) : Prop := 0 <= z <= 255.

(** Two of the three normalized control points coincide. *)
Definition degenerate (black grey white : Z) : Prop :=
  let x0 := Q_of_pyfloat (normalized black) in
  let x1 := Q_of_pyfloat (normalized grey) in
  let x2 := Q_of_pyfloat (normalized white) in
  (x0 == x1 \/ x0 == x2 \/ x1 == x2)%Q.

(** An array of the raster geometry [sh] (rows, columns). *)
Definition geometry {F} (sh : nat * nat) (a : ndarray F) : Prop :=
  shape a = sh /\ length (cells a) = (fst sh * snd sh)%nat.



(** A one by one array. *)
Definition pixel {F} (x : F) : ndarray F := mk_ndarray 1 1 [x].

(** The four channels of a raster have the geometry [sh]. *)
Definition one_geometry {F} (sh : nat * nat) (V : rgba (ndarray F)) : Prop :=
  geometry sh (ch0 V) /\ geometry sh (ch1 V) /\ geometry sh (ch2 V) /\ geometry sh (ch3 V).

(** A Python name is bound ([Some]) or not. *)
Definition bound {X} (o : option X) : bool :=
  match o with
  | Some _ => true
  | None => false
  end.

(** A PIL image holds as many pixels as its size says. *)
Definition wf_image (im : image) : Prop :=
  length (im_pixels im) = (fst (im_size im) * snd (im_size im))%nat.

(** ** The fixture of CompositeTests *)

Module Fixture.
Definition px (r g b a : Z) : rgba ubyte :=
  mk_rgba (ubyte_of_Z r) (ubyte_of_Z g) (ubyte_of_Z b) (ubyte_of_Z a).

Definition _fff := px 255 255 255 255.
Definition _ccc := px 204 204 204 255.
Definition _999 := px 153 153 153 255.
Definition _000 := px 0 0 0 255.
Definition _nil := px 0 0 0 0.

(** PIL's conversion of an RGBA pixel to mode 'L' (ITU-R 601-2 luma). *)
Definition luma (p : rgba ubyte) : ubyte :=
  ubyte_of_Z ((Z_of_ubyte (ch0 p) * 299 + Z_of_ubyte (ch1 p) * 587
               + Z_of_ubyte (ch2 p) * 114) / 1000).

(** [tinybitmap_layer]: a layer whose provider returns a three by three
    bitmap. *)
Definition tinybitmap_layer (pixels : list (rgba ubyte)) : tile_layer :=
  mk_tile_layer (fun _ => Ok (mk_image (3, 3)%nat pixels))
                (fun _ => Ok (mk_image_L (3, 3)%nat (map luma pixels))).

Definition config : Configuration :=
  <["base"%string := tinybitmap_layer (replicate 9 _ccc)]>
  (<["halos"%string := tinybitmap_layer ([_fff; _fff; _000; _fff; _fff] ++ replicate 4 _000)]>
  (<["outlines"%string := tinybitmap_layer ([_nil] ++ replicate 7 _999 ++ [_nil])]>
  (<["streets"%string :=
       tinybitmap_layer [_nil; _nil; _fff; _nil; _fff; _nil; _fff; _nil; _nil]]> ∅))).

(** A layer of the JSON configuration, with the defaults of
    [Layer.__init__]. *)
Definition json_layer (src : option string) (color : pyvalue) (mask : option string) : node :=
  Layer (mk_layer src color mask (PyFloat (Py64.of_Z 1)) None None).

(** [layer.provider.renderTile(3, 3, None, Coordinate(0, 0, 0))], read as
    the list of [img.getpixel] values. *)
Definition getpixels (stack : node) : result (list (list Z)) :=
  match (renderTile stack config 3 3 (mk_Coordinate 0 0 0) ∅).1 with
  | Ok img => Ok (map (fun p => map Z_of_ubyte (rgba_list p)) (im_pixels img))
  | Err e => Err e
  end.

(** Two one by one arrays in a store, a raster on each. *)
Definition store {F} (x y : F) : heap F :=
  <[1%positive := pixel x]> (<[2%positive := pixel y]> ∅).
Definition first : raster := mk_raster true (mk_rgba 1 1 1 1)%positive.
Definition second : raster := mk_raster true (mk_rgba 2 2 2 2)%positive.
End Fixture.

(** ** Vocabulary of the further statements *)

(** ** More vocabulary: colours *)

(** Every character, by code. *)
Definition all_ascii : list ascii := map ascii_of_nat (seq 0 256).

(** What [int(.., 16)] makes of a channel of two characters: two
    hexadecimal digits, one digit after a blank or a sign, or one digit
    before a blank. *)
Definition channel_value (a b : ascii) : option Z :=
  match hex_digit a, hex_digit b with
  | Some x, Some y => Some (16 * x + y)
  | Some x, None => if is_space b then Some x else None
  | None, Some y =>
      if Ascii.eqb a "-" then Some (- y)
      else if Ascii.eqb a "+" || is_space a then Some y
      else None
  | None, None => None
  end.

(** [str.upper] on one character. *)
Definition upper (c : ascii) : ascii :=
  if (97 <=? ord c) && (ord c <=? 122) then ascii_of_N (Z.to_N (ord c - 32)) else c.

Definition option_Z_eqb (x y : option Z) : bool :=
  match x, y with
  | Some m, Some n => m =? n
  | None, None => true
  | _, _ => false
  end.

(** ** More vocabulary: blending, cell by cell *)

Fixpoint map3 {A B C D} (f : A -> B -> C -> D) (xs : list A) (ys : list B) (zs : list C) : list D :=
  match xs, ys, zs with
  | x :: xs', y :: ys', z :: zs' => f x y z :: map3 f xs' ys' zs'
  | _, _, _ => []
  end.

Section Cells.
Context {F : Type} `{Dtype F}.

(** [(1 - opacity) * bottom + opacity * output] on one cell. *)
Definition lerp_cell (opacity : pynum) (b o : F) : F :=
  dt_add (dt_mul (dt_of_num (py_one_minus opacity)) b) (dt_mul (dt_of_num opacity) o).

(** [(1 - mask) * bottom + mask * top] on one cell. *)
Definition paste_cell (m b t : F) : F :=
  dt_add (dt_mul (dt_sub one m) b) (dt_mul m t).

(** [1 - (1 - bottom) * (1 - top * mask)] on one cell. *)
Definition alpha_cell (b t m : F) : F :=
  dt_sub one (dt_mul (dt_sub one b) (dt_sub one (dt_mul t m))).

(** Hard light on one cell: [1 - 2 * (1 - bottom) * (1 - top)] where
    [top >= .5], [2 * bottom * top] where [top < .5], and the bottom value
    where neither comparison holds. *)
Definition hard_cell (b t : F) : F :=
  if dt_leb half t then dt_sub one (dt_mul (dt_mul two (dt_sub one b)) (dt_sub one t))
  else if dt_ltb t half then dt_mul (dt_mul two b) t
  else b.

(** An array of the geometry [sh] with the given cells. *)
Definition grid (sh : nat * nat) (xs : list F) : ndarray F :=
  mk_ndarray (fst sh) (snd sh) xs.
End Cells.

Section BlendCells.
Context {F : Type} `{Dtype F}.

(** One colour cell of a plain blend. *)
Definition plain_cell (opacity : pynum) (m b t : F) : F :=
  lerp_cell opacity b (paste_cell m b t).

(** One colour cell of a hard light blend. *)
Definition hard_light_cell (opacity : pynum) (b t : F) : F :=
  lerp_cell opacity b (hard_cell b t).

(** The four arrays of a plain blend of the geometry [sh]. *)
Definition plain_blend (sh : nat * nat) (opacity : pynum) (m : ndarray F)
    (B T : rgba (ndarray F)) : rgba (ndarray F) :=
  let colour c := grid sh (map3 (plain_cell opacity) (cells m) (cells (c B)) (cells (c T))) in
  mk_rgba (colour ch0) (colour ch1) (colour ch2)
    (grid sh (map3 alpha_cell (cells (ch3 B)) (cells (ch3 T)) (cells m))).

(** The four arrays of a hard light blend of the geometry [sh]. *)
Definition hard_light_blend (sh : nat * nat) (opacity : pynum)
    (B T : rgba (ndarray F)) : rgba (ndarray F) :=
  let colour c := grid sh (zip_with (hard_light_cell opacity) (cells (c B)) (cells (c T))) in
  mk_rgba (colour ch0) (colour ch1) (colour ch2) (ch3 B).
End BlendCells.

(** ** More vocabulary: layers, pixel by pixel *)

(** The four float arrays of an image, height by width. *)
Definition image_arrays (im : image) : rgba (ndarray float32) :=
  let band c :=
    arr_map unit_float (mk_ndarray (snd (im_size im)) (fst (im_size im)) (map c (im_pixels im))) in
  mk_rgba (band ch0) (band ch1) (band ch2) (band ch3).

(** The image of four float arrays: the value [_rgba2img] returns. *)
Definition arrays_image (V : rgba (ndarray float32)) : result image :=
  let? r := _arr2img (arr_map quantize (ch0 V)) in
  let? g := _arr2img (arr_map quantize (ch1 V)) in
  let? b := _arr2img (arr_map quantize (ch2 V)) in
  let? a := _arr2img (arr_map quantize (ch3 V)) in
  merge (mk_rgba r g b a).

(** One cell of [numpy.zeros(shape, numpy.float32) + band/255.0]. *)
Definition color_cell (band : Z) : float32 :=
  F32.add (S754_zero false) (F32.of_pyfloat (Py64.div (Py64.of_Z band) (Py64.of_Z 255))).

(** A pixel under a layer that is a colour only, blended plainly: the
    colour's alpha is the mask. *)
Definition paint (opacity : pynum) (c : rgba Z) (p : rgba ubyte) : rgba ubyte :=
  let m := color_cell (ch3 c) in
  let colour b t := quantize (plain_cell opacity m (unit_float b) (color_cell t)) in
  mk_rgba (colour (ch0 p) (ch0 c)) (colour (ch1 p) (ch1 c)) (colour (ch2 p) (ch2 c))
    (quantize (alpha_cell (unit_float (ch3 p)) m m)).

(** The integers from 0 to 255. *)
Definition all_bytes : list Z := map Z.of_nat (seq 0 256).

(** The only attribute of the layer is its colour. *)
Definition color_only (self : layer) : Prop :=
  truthy_name (layername self) = false /\ truthy_name (maskname self) = false.

(** The opacity is one, as the integer or as the float. *)
Definition full_opacity (opacity : pynum) : Prop :=
  opacity = PyInt 1 \/ opacity = PyFloat (Py64.of_Z 1).

(** A colour cell over an opaque mask, seen through the two formulas of a
    plain blend, once the bottom cell has dropped out. *)
Definition opaque_cell (opacity : pynum) (band : Z) : float32 :=
  let zero : float32 := S754_zero false in
  dt_add zero (dt_mul (dt_of_num opacity) (dt_add zero (dt_mul (color_cell 255) (color_cell band)))).

Definition opaque_check (opacity : pynum) : bool :=
  forallb (fun z => Byte.eqb (quantize (opaque_cell opacity z)) (ubyte_of_Z z)) all_bytes.

(** An image of one colour, of the size and the number of pixels of [im]. *)
Definition solid (im : image) (p : rgba ubyte) : image :=
  mk_image (im_size im) (replicate (length (im_pixels im)) p).

(** A colour whose four channels are bytes, the alpha channel 255. *)
Definition opaque_color (c : rgba Z) : Prop :=
  Forall is_byte (rgba_list c) /\ ch3 c = 255.

(** ** More vocabulary: the curves adjustment, cell by cell *)

(** One cell of [float(co[n]) * numpy.ones(red.shape, numpy.float32)]. *)
Definition curve_coefficient (co : Q) : float32 :=
  F32.mul (F32.of_pyfloat (Py64.of_Q co)) (F32.of_Z 1).

(** [a * x**2 + b * x + c] on one cell. *)
Definition curve_cell (a b c : Q) (x : float32) : float32 :=
  F32.add
    (F32.add (F32.mul (curve_coefficient a) (F32.mul x x)) (F32.mul (curve_coefficient b) x))
    (curve_coefficient c).

(** The arrays of an adjusted raster of the geometry [sh]: three curved
    colour channels and the alpha channel as it was. *)
Definition curves_arrays (sh : nat * nat) (a b c : Q) (V : rgba (ndarray float32)) :
    rgba (ndarray float32) :=
  let colour k := grid sh (map (curve_cell a b c) (cells (k V))) in
  mk_rgba (colour ch0) (colour ch1) (colour ch2) (ch3 V).

(** A pixel under a layer that is a source only, blended plainly: the
    alpha of the source pixel is the mask. *)
Definition cover (opacity : pynum) (p t : rgba ubyte) : rgba ubyte :=
  let m := unit_float (ch3 t) in
  let colour b s := quantize (plain_cell opacity m (unit_float b) (unit_float s)) in
  mk_rgba (colour (ch0 p) (ch0 t)) (colour (ch1 p) (ch1 t)) (colour (ch2 p) (ch2 t))
    (quantize (alpha_cell (unit_float (ch3 p)) m m)).

(** The only attribute of the layer is its source, the layer [source]
    of the configuration, whose tile at [coord] is [tile]. *)
Definition source_only (self : layer) (config : Configuration) (coord : Coordinate)
    (tile : image) : Prop :=
  exists name source,
    layername self = Some name /\ name <> ""%string
    /\ config !! name = Some source /\ getTile_RGBA source coord = Ok tile
    /\ truthy (colorname self) = false /\ truthy_name (maskname self) = false
    /\ (adjustments self = None \/ adjustments self = Some []).

Definition cover_check (opacity : pynum) : bool :=
  forallb (fun z =>
    Byte.eqb (quantize
                (dt_add (S754_zero false : float32)
                   (dt_mul (dt_of_num opacity)
                      (dt_add (S754_zero false : float32)
                         (dt_mul (unit_float Byte.xff) (unit_float (ubyte_of_Z z)))))))
             (ubyte_of_Z z)) all_bytes.

(** * Properties *)

(** ** make_color *)

Lemma hex_digit_facts (c : ascii) (d : Z) :
  hex_digit c = Some d ->
  is_space c = false /\ Ascii.eqb c "-" = false /\ Ascii.eqb c "+" = false
  /\ is_hex c = true /\ 0 <= d <= 15.
Proof.
  destruct c as [[] [] [] [] [] [] [] []]; vm_compute; intros E;
    try discriminate E; injection E as <-; repeat split; discriminate.
Qed.

(** [int()] reads two hexadecimal digits as their base 16 number. *)
Lemma int16_two_hex (a b : ascii) (x y : Z) :
  hex_digit a = Some x -> hex_digit b = Some y ->
  int16 [a; b] = Some (16 * x + y).
Proof.
  intros Ha Hb.
  destruct (hex_digit_facts a x Ha) as (Sa & Ma & Pa & Xa & _).
  unfold int16. cbn [skip_space]. rewrite Sa, Ma, Pa. cbn [skip_space]. rewrite Sa, Xa.
  cbn [hex_run]. rewrite Ha, Hb. reflexivity.
Qed.

Lemma hex_pair_is_byte (a b : ascii) (x y : Z) :
  hex_digit a = Some x -> hex_digit b = Some y -> is_byte (16 * x + y).
Proof.
  intros Ha Hb.
  destruct (hex_digit_facts a x Ha) as (_ & _ & _ & _ & Bx).
  destruct (hex_digit_facts b y Hb) as (_ & _ & _ & _ & By).
  unfold is_byte. lia.
Qed.

Lemma make_color_six (r1 r2 g1 g2 b1 b2 : ascii) (x1 x2 y1 y2 z1 z2 : Z) :
  hex_digit r1 = Some x1 -> hex_digit r2 = Some x2 ->
  hex_digit g1 = Some y1 -> hex_digit g2 = Some y2 ->
  hex_digit b1 = Some z1 -> hex_digit b2 = Some z2 ->
  make_color (hash_color [r1; r2; g1; g2; b1; b2])
  = Ok (mk_rgba (16 * x1 + x2) (16 * y1 + y2) (16 * z1 + z2) 255).
Proof.
  intros Hr1 Hr2 Hg1 Hg2 Hb1 Hb2. unfold make_color, hash_color.
  rewrite list_ascii_of_string_of_list_ascii.
  cbn -[int16]. rewrite (int16_two_hex _ _ _ _ Hr1 Hr2), (int16_two_hex _ _ _ _ Hg1 Hg2),
    (int16_two_hex _ _ _ _ Hb1 Hb2).
  reflexivity.
Qed.

Lemma make_color_eight (r1 r2 g1 g2 b1 b2 a1 a2 : ascii) (x1 x2 y1 y2 z1 z2 w1 w2 : Z) :
  hex_digit r1 = Some x1 -> hex_digit r2 = Some x2 ->
  hex_digit g1 = Some y1 -> hex_digit g2 = Some y2 ->
  hex_digit b1 = Some z1 -> hex_digit b2 = Some z2 ->
  hex_digit a1 = Some w1 -> hex_digit a2 = Some w2 ->
  make_color (hash_color [r1; r2; g1; g2; b1; b2; a1; a2])
  = Ok (mk_rgba (16 * x1 + x2) (16 * y1 + y2) (16 * z1 + z2) (16 * w1 + w2)).
Proof.
  intros Hr1 Hr2 Hg1 Hg2 Hb1 Hb2 Ha1 Ha2. unfold make_color, hash_color.
  rewrite list_ascii_of_string_of_list_ascii.
  cbn -[int16]. rewrite (int16_two_hex _ _ _ _ Hr1 Hr2), (int16_two_hex _ _ _ _ Hg1 Hg2),
    (int16_two_hex _ _ _ _ Hb1 Hb2), (int16_two_hex _ _ _ _ Ha1 Ha2).
  reflexivity.
Qed.

(** The short forms are read as their doubled long forms, whatever the
    characters are. *)
Lemma make_color_short (r g b a : ascii) :
  make_color (hash_color [r; g; b]) = make_color (hash_color [r; r; g; g; b; b])
  /\ make_color (hash_color [r; g; b; a]) = make_color (hash_color [r; r; g; g; b; b; a; a]).
Proof.
  unfold make_color, hash_color. rewrite !list_ascii_of_string_of_list_ascii.
  split; reflexivity.
Qed.

(** C6. Colour parsing expands the short forms and yields four bytes:
    "#fff", "#ffffff" and "#ffffffff" are all (255, 255, 255, 255), "#0000"
    is (0, 0, 0, 0) and "#f908" is (255, 153, 0, 136); a three digit form
    [rgb] is read as [rrggbb] and a four digit form [rgba] as [rrggbbaa]; six
    hexadecimal digits give their three bytes and alpha 255, eight give four
    bytes with the alpha they spell. *)
Theorem make_color_forms :
  (make_color (PyStr "#fff") = Ok (mk_rgba 255 255 255 255)
   /\ make_color (PyStr "#ffffff") = Ok (mk_rgba 255 255 255 255)
   /\ make_color (PyStr "#ffffffff") = Ok (mk_rgba 255 255 255 255)
   /\ make_color (PyStr "#0000") = Ok (mk_rgba 0 0 0 0)
   /\ make_color (PyStr "#f908") = Ok (mk_rgba 255 153 0 136))
  /\ (forall r g b : ascii,
        make_color (hash_color [r; g; b]) = make_color (hash_color [r; r; g; g; b; b]))
  /\ (forall r g b a : ascii,
        make_color (hash_color [r; g; b; a])
        = make_color (hash_color [r; r; g; g; b; b; a; a]))
  /\ (forall (r1 r2 g1 g2 b1 b2 : ascii) (x1 x2 y1 y2 z1 z2 : Z),
        hex_digit r1 = Some x1 -> hex_digit r2 = Some x2 ->
        hex_digit g1 = Some y1 -> hex_digit g2 = Some y2 ->
        hex_digit b1 = Some z1 -> hex_digit b2 = Some z2 ->
        make_color (hash_color [r1; r2; g1; g2; b1; b2])
        = Ok (mk_rgba (16 * x1 + x2) (16 * y1 + y2) (16 * z1 + z2) 255)
        /\ is_byte (16 * x1 + x2) /\ is_byte (16 * y1 + y2) /\ is_byte (16 * z1 + z2))
  /\ (forall (r1 r2 g1 g2 b1 b2 a1 a2 : ascii) (x1 x2 y1 y2 z1 z2 w1 w2 : Z),
        hex_digit r1 = Some x1 -> hex_digit r2 = Some x2 ->
        hex_digit g1 = Some y1 -> hex_digit g2 = Some y2 ->
        hex_digit b1 = Some z1 -> hex_digit b2 = Some z2 ->
        hex_digit a1 = Some w1 -> hex_digit a2 = Some w2 ->
        make_color (hash_color [r1; r2; g1; g2; b1; b2; a1; a2])
        = Ok (mk_rgba (16 * x1 + x2) (16 * y1 + y2) (16 * z1 + z2) (16 * w1 + w2))
        /\ is_byte (16 * x1 + x2) /\ is_byte (16 * y1 + y2) /\ is_byte (16 * z1 + z2)
        /\ is_byte (16 * w1 + w2)).
Proof.
  split; [repeat split; reflexivity|].
  split; [intros r g b; exact (proj1 (make_color_short r g b r))|].
  split; [intros r g b a; exact (proj2 (make_color_short r g b a))|].
  split.
  - intros. split; [apply make_color_six; assumption|].
    repeat split; eapply hex_pair_is_byte; eassumption.
  - intros. split; [apply make_color_eight; assumption|].
    repeat split; eapply hex_pair_is_byte; eassumption.
Qed.

Lemma make_color_forms_witness :
  make_color (PyStr "#ff9900") = Ok (mk_rgba 255 153 0 255)
  /\ make_color (PyStr "#ff990088") = Ok (mk_rgba 255 153 0 136).
Proof.
  split.
  - exact (proj1 (proj1 (proj2 (proj2 (proj2 make_color_forms)))
                    "f" "f" "9" "9" "0" "0" 15 15 9 9 0 0
                    eq_refl eq_refl eq_refl eq_refl eq_refl eq_refl)%char).
  - exact (proj1 (proj2 (proj2 (proj2 (proj2 make_color_forms)))
                    "f" "f" "9" "9" "0" "0" "8" "8" 15 15 9 9 0 0 8 8
                    eq_refl eq_refl eq_refl eq_refl eq_refl eq_refl eq_refl eq_refl)%char).
Defined.

Lemma length_list_ascii (s : string) : length (list_ascii_of_string s) = String.length s.
Proof. induction s as [|c s IH]; cbn; congruence. Qed.

(** What [make_color] does refuse with a [KnownUnknown]: a value that is
    not a string, a string that starts with another character than [#], and
    a [#] followed by another number of characters than 3, 4, 6 or 8. *)
Lemma make_color_refuses (color : pyvalue) :
  (forall s, color <> PyStr s) \/
  (exists c s, color = PyStr (String c s) /\ c <> "#"%char) \/
  (exists s, color = PyStr (String "#" s) /\ String.length s ∉ [3; 4; 6; 8]%nat) ->
  exists e, make_color color = Err e /\ is_InvalidColor e = true.
Proof.
  intros [N | [(c & s & -> & N) | (s & -> & N)]].
  - destruct color; try (eexists; split; reflexivity). destruct (N s). reflexivity.
  - unfold make_color. cbn [list_ascii_of_string].
    apply Ascii.eqb_neq in N. rewrite N. cbn [negb]. eexists. split; reflexivity.
  - unfold make_color. cbn [list_ascii_of_string]. rewrite Ascii.eqb_refl. cbn [negb].
    rewrite bool_decide_eq_false_2.
    + cbn [negb]. eexists. split; reflexivity.
    + cbn [length]. rewrite length_list_ascii.
      intros E. apply N. set_unfold. lia.
Qed.

(** C7. The parser does not refuse every character that is not a
    hexadecimal digit: a sign or a blank inside a two character channel is
    accepted by [int(.., 16)], so "#+f+f+f" is a colour, and "#-f-f-f" has
    negative channels; the empty string raises IndexError, which is not a
    [KnownUnknown]. *)
Theorem make_color_accepts_signs :
  is_hex "+" = false /\ is_hex "-" = false
  /\ make_color (PyStr "#+f+f+f") = Ok (mk_rgba 15 15 15 255)
  /\ make_color (PyStr "#-f-f-f") = Ok (mk_rgba (-15) (-15) (-15) 255)
  /\ make_color (PyStr "") = Err IndexError
  /\ is_InvalidColor IndexError = false.
Proof. repeat split; reflexivity. Qed.

(** ** The curve solver *)


Lemma sympy_solve_degenerate (x0 x1 x2 : Q) :
  (x0 == x1 \/ x0 == x2 \/ x1 == x2)%Q -> sympy_solve x0 x1 x2 = None.
Proof.
  intros D. unfold sympy_solve.
  destruct D as [E | [E | E]]; apply Qeq_eq_bool in E; rewrite E;
    rewrite ?orb_true_r; reflexivity.
Qed.

(** C3. When two of the three normalized control points coincide, the curve
    adjustment fails and returns no coefficients: indexing the solver's
    result, which binds none of a, b and c, raises TypeError, and the store
    is left as it was. *)
Theorem curves_degenerate (rgba : raster) (black grey white : Z) (h : heap float32) :
  degenerate black grey white ->
  apply_curves_adjustment rgba black grey white h = (Err TypeError, h).
Proof.
  intros D. unfold apply_curves_adjustment.
  rewrite (sympy_solve_degenerate _ _ _ D). reflexivity.
Qed.

Lemma curves_degenerate_witness :
  degenerate 100 100 200
  /\ apply_curves_adjustment Fixture.first 100 100 200 (Fixture.store (F32.of_Z 0) (F32.of_Z 1))
     = (Err TypeError, Fixture.store (F32.of_Z 0) (F32.of_Z 1)).
Proof.
  assert (D : degenerate 100 100 200) by (left; reflexivity).
  split; [exact D | exact (curves_degenerate _ 100 100 200 _ D)].
Defined.

(** The failure on the degenerate control points 100, 100, 200 is a
    TypeError, not a [KnownUnknown]. *)
Lemma curves_degenerate_not_known :
  (apply_curves_adjustment Fixture.first 100 100 200 (Fixture.store (F32.of_Z 0) (F32.of_Z 1))).1
  = Err TypeError
  /\ is_KnownUnknown TypeError = false.
Proof. split; reflexivity. Qed.

(** ** Stacks *)

Lemma BLEND_clear (out inp : ubyte) : BLEND Byte.x00 out inp = out.
Proof.
  unfold BLEND, MULDIV255. change (Z_of_ubyte Byte.x00) with 0.
  rewrite Z.mul_0_r. destruct out; reflexivity.
Qed.

Lemma blend_pixel_clear (m out inp : rgba ubyte) :
  ch3 m = Byte.x00 -> blend_pixel (ch3 m) out inp = out.
Proof.
  intros ->. unfold blend_pixel. rewrite !BLEND_clear. destruct out; reflexivity.
Qed.

Lemma imap_same {X} (f : nat -> X -> X) (l : list X) :
  (forall i x, f i x = x) -> imap f l = l.
Proof.
  revert f. induction l as [|x l IH]; intros f Hf; [reflexivity|].
  cbn. rewrite Hf. f_equal. apply IH. intros i y. apply Hf.
Qed.

(** Pasting an all-transparent image changes nothing. *)
Lemma paste_transparent (dst : image) (size : nat * nat) :
  paste dst (PIL_new size transparent) (PIL_new size transparent) = dst.
Proof.
  destruct dst as [sz px]. unfold paste. cbn [im_size im_pixels PIL_new]. f_equal.
  apply imap_same. intros i out.
  destruct (_ && _); [|reflexivity].
  destruct (replicate _ _ !! _) as [p|] eqn:E; [|reflexivity].
  apply lookup_replicate in E as [-> _]. apply blend_pixel_clear. reflexivity.
Qed.

(** C8. A stack without children returns its input image, pixel for pixel,
    and leaves the store alone: the scratch image stays all transparent and
    pasting it is a no-op. *)
Theorem stack_empty (config : Configuration) (input_img : image) (coord : Coordinate)
    (h : heap float32) :
  Stack.render [] config input_img coord h = (Ok input_img, h).
Proof.
  unfold Stack.render. cbn. unfold bind, ret. rewrite paste_transparent. reflexivity.
Qed.

(** ** Running a computation in the store *)

Section Wp.
Context {F : Type}.
Implicit Types (h : heap F) (l : loc) (a : ndarray F).

Lemma wp_bind {A B} (m : M F A) (k : A -> M F B) h Q :
  wp m h (fun r h' => match r with Ok x => wp (k x) h' Q | Err e => Q (Err e) h' end) ->
  wp (bind m k) h Q.
Proof. unfold wp, bind. destruct (m h) as [[x|e] h']; cbn; auto. Qed.

Lemma wp_ret {A} (x : A) h (Q : result A -> heap F -> Prop) : Q (Ok x) h -> wp (ret x) h Q.
Proof. auto. Qed.

Lemma wp_raise {A} e h (Q : result A -> heap F -> Prop) : Q (Err e) h -> wp (raise e) h Q.
Proof. auto. Qed.

Lemma wp_lift {A} (r : result A) h (Q : result A -> heap F -> Prop) : Q r h -> wp (lift r) h Q.
Proof. auto. Qed.

Lemma wp_load l a h Q : h !! l = Some a -> Q (Ok a) h -> wp (load l) h Q.
Proof. unfold wp, load. intros ->. auto. Qed.

Lemma wp_alloc a h Q :
  (forall l, h !! l = None -> Q (Ok l) (<[l := a]> h)) -> wp (alloc a) h Q.
Proof.
  intros HQ. unfold wp, alloc. cbn. apply HQ.
  apply not_elem_of_dom_1. apply is_fresh.
Qed.

Lemma wp_store l a a0 h Q :
  h !! l = Some a0 -> Q (Ok tt) (<[l := a]> h) -> wp (store l a) h Q.
Proof. unfold wp, store. intros ->. auto. Qed.

Lemma fresh_ne h l x a : h !! l = None -> h !! x = Some a -> l <> x.
Proof. intros Hl Hx ->. rewrite Hl in Hx. discriminate. Qed.

Lemma lookup_alloc h l x a v : h !! l = None -> h !! x = Some v -> <[l := a]> h !! x = Some v.
Proof. intros Hl Hx. rewrite lookup_insert_ne; [exact Hx | eapply fresh_ne; eauto]. Qed.

Lemma lookup_store_ne h l x a v : l <> x -> h !! x = Some v -> <[l := a]> h !! x = Some v.
Proof. intros N Hx. rewrite lookup_insert_ne; auto. Qed.

Lemma sub_alloc h0 h l a : h0 ⊆ h -> h !! l = None -> h0 ⊆ <[l := a]> h.
Proof. intros Hs Hl. apply insert_subseteq_r; [eapply lookup_weaken_None; eauto | exact Hs]. Qed.

Lemma sub_store h0 h l a : h0 ⊆ h -> h0 !! l = None -> h0 ⊆ <[l := a]> h.
Proof. intros Hs Hl. apply insert_subseteq_r; auto. Qed.
End Wp.

(** Symbolic execution: what is known of the store is kept as lookups in
    the current store, carried over every allocation and every write. *)
Ltac heap_forward l Hl :=
  repeat match goal with
    | H : ?h !! ?x = Some ?v |- wp _ (<[l := ?a]> ?h) _ =>
        let N := fresh "N" in
        pose proof (fresh_ne h l x v Hl H) as N;
        apply (lookup_alloc h l x a v Hl) in H
    end.

Ltac wp_alloc_step :=
  apply wp_alloc;
  let l := fresh "l" in
  let Hl := fresh "Hl" in
  intros l Hl; cbv beta iota;
  heap_forward l Hl;
  match goal with
  | Hs : ?h0 ⊆ ?h |- wp _ (<[l := ?a]> ?h) _ =>
      let Hl0 := fresh "Hl0" in
      pose proof (lookup_weaken_None _ _ _ Hl Hs) as Hl0;
      pose proof (lookup_insert_eq h l a);
      apply (sub_alloc h0 h l a) in Hs; [|exact Hl];
      clear Hl;
      let h' := fresh "h" in
      set (h' := <[l := a]> h) in *; clearbody h'
  end.

Ltac heap_store l :=
  repeat match goal with
    | H : ?h !! ?x = Some ?v |- wp _ (<[l := ?a]> ?h) _ =>
        first
          [ constr_eq x l; clear H
          | apply (lookup_store_ne h l x a v) in H; [|congruence] ]
    end;
  match goal with
  | Hs : ?h0 ⊆ ?h, Hl0 : ?h0 !! l = None |- wp _ (<[l := ?a]> ?h) _ =>
      pose proof (lookup_insert_eq h l a);
      apply (sub_store h0 h l a) in Hs; [|exact Hl0];
      let h' := fresh "h" in
      set (h' := <[l := a]> h) in *; clearbody h'
  end.

Ltac wp_step :=
  cbn [get_ch set_ch ch0 ch1 ch2 ch3 chans is_list];
  lazymatch goal with
  | |- wp (bind _ _) _ _ => apply wp_bind
  | |- wp (ret _) _ _ => apply wp_ret; cbv beta iota
  | |- wp (raise _) _ _ => apply wp_raise; cbv beta iota
  | |- wp (lift ?r) _ _ =>
      apply wp_lift; let E := fresh "E" in destruct r eqn:E; cbv beta iota
  | |- wp (load _) _ _ =>
      eapply wp_load; [eassumption | cbv beta iota]
  | |- wp (store ?l _) _ _ =>
      eapply wp_store; [eassumption | cbv beta iota; heap_store l]
  | |- wp (alloc _) _ _ => wp_alloc_step
  | |- wp (mask_array _) _ _ => unfold mask_array
  | |- wp (for_rgb _ _) _ _ => unfold for_rgb
  end.

Ltac wp_run := repeat wp_step.

Ltac solve_NoDup :=
  unfold rgba_list; cbn [ch0 ch1 ch2 ch3];
  repeat (apply NoDup_cons_2;
          [rewrite ?not_elem_of_cons; repeat split; solve [congruence | apply not_elem_of_nil]|]);
  apply NoDup_nil_2.

Ltac blend_finish :=
  unfold blend_post, blend_value, mask_value, hard_light_expr;
  repeat match goal with E : _ = _ :> bool |- _ => rewrite E end;
  cbv zeta; cbn [rbind ch0 ch1 ch2 ch3];
  repeat match goal with
    | E : _ = _ :> result _ |- _ => rewrite E; cbn [rbind ch0 ch1 ch2 ch3]
    end;
  split; [assumption|];
  first
    [ reflexivity
    | eexists; split; [reflexivity|];
      split; [repeat split; eassumption|];
      split; [repeat split; assumption|];
      solve_NoDup ].

Section Run.
Context {F : Type} `{Dtype F}.

(** [blend_images] computes [blend_value] into new array objects and
    changes no array of the store it starts in. *)
Lemma blend_images_run (h : heap F) (bottom top : raster) (mask : mask_arg)
    (opacity : pynum) (blendmode : option string)
    (B T : rgba (ndarray F)) (mv : option (ndarray F)) :
  holds h (chans bottom) B -> holds h (chans top) T -> mask_holds h mask mv ->
  wp (blend_images bottom top mask opacity blendmode) h
     (blend_post h B T mv opacity blendmode).
Proof.
  intros (B0 & B1 & B2 & B3) (T0 & T1 & T2 & T3) Hm.
  assert (Hs : h ⊆ h) by reflexivity.
  unfold blend_images, copy_all, numpy_copy.
  destruct mask as [r|lm]; cbn [mask_holds] in Hm;
    [destruct (is_list r) eqn:Er; [destruct Hm as (a & Ha & ->)|subst mv]
    |destruct Hm as (a & Ha & ->)];
    wp_run;
    (destruct (py_eq_zero opacity) eqn:Ez; [wp_run; blend_finish|]);
    apply wp_bind;
    (destruct (negb (truthy_name blendmode)) eqn:Et;
     [|destruct (bool_decide (blendmode = Some "hard light"%string)) eqn:Eh]);
    wp_run; blend_finish.
Qed.
End Run.

(** ** Arrays of one geometry *)

Section Geometry.
Context {F : Type}.
Implicit Types (a b : ndarray F) (sh : nat * nat).

Lemma geometry_shape {X} sh (a : ndarray X) :
  geometry sh a -> nrows a = fst sh /\ ncols a = snd sh.
Proof. intros [E _]. unfold shape in E. subst sh. auto. Qed.

Lemma arr_map2_geometry (f : F -> F -> F) sh a b :
  geometry sh a -> geometry sh b ->
  arr_map2 f a b = Ok (mk_ndarray (fst sh) (snd sh) (zip_with f (cells a) (cells b))).
Proof.
  intros Ga Gb.
  destruct (geometry_shape _ _ Ga) as [Ra Ca], (geometry_shape _ _ Gb) as [Rb Cb].
  unfold arr_map2, bcast_axis, stretch. rewrite Ra, Rb, Ca, Cb, !Nat.eqb_refl. reflexivity.
Qed.

Lemma geometry_zip (f : F -> F -> F) sh a b :
  geometry sh a -> geometry sh b ->
  geometry sh (mk_ndarray (fst sh) (snd sh) (zip_with f (cells a) (cells b))).
Proof.
  intros [_ La] [_ Lb]. split; [destruct sh; reflexivity|].
  cbn. rewrite length_zip_with. lia.
Qed.

Lemma geometry_map {X} (f : F -> X) sh a : geometry sh a -> geometry sh (arr_map f a).
Proof.
  intros [E L]. split; [exact E|]. cbn. rewrite length_map. exact L.
Qed.

Lemma select_length {X} (xs : list X) (mask : list bool) :
  length xs = length mask ->
  length (map snd (filter (fun p => fst p = true) (zip mask xs))) = count_true mask.
Proof.
  revert xs. unfold count_true. induction mask as [|m mask IH]; intros [|x xs] L;
    try discriminate L; [reflexivity|].
  cbn [zip zip_with]. rewrite !filter_cons. cbn [fst].
  injection L as L. destruct (decide (m = true)); cbn; rewrite IH; auto.
Qed.



End Geometry.

Section BlendFacts.
Context {F : Type} `{Dtype F}.



Lemma alpha_expr_geometry sh (b i : ndarray F) :
  geometry sh b -> geometry sh i ->
  alpha_expr b i
  = Ok (mk_ndarray (fst sh) (snd sh)
          (map (dt_sub one)
             (zip_with dt_mul (map (dt_sub one) (cells b)) (map (dt_sub one) (cells i))))).
Proof.
  intros Gb Gi. unfold alpha_expr.
  rewrite (arr_map2_geometry _ sh) by auto using geometry_map. reflexivity.
Qed.




(** Whatever the shapes are, a hard light blend that returns, returns the
    alpha channel of the bottom raster. *)
Lemma blend_value_hard_light_alpha (B T V : rgba (ndarray F)) (mv : option (ndarray F))
    (opacity : pynum) :
  py_eq_zero opacity = false ->
  blend_value B T mv opacity (Some "hard light"%string) = Ok V -> ch3 V = ch3 B.
Proof.
  intros Ez. unfold blend_value. rewrite Ez.
  change (negb (truthy_name (Some "hard light"%string))) with false. cbv iota.
  rewrite bool_decide_eq_true_2 by reflexivity.
  destruct (hard_light_expr (ch0 B) (ch0 T)); cbn [rbind]; [|discriminate].
  destruct (hard_light_expr (ch1 B) (ch1 T)); cbn [rbind]; [|discriminate].
  destruct (hard_light_expr (ch2 B) (ch2 T)); cbn [rbind ch0 ch1 ch2 ch3]; [|discriminate].
  destruct (opacity_expr opacity (ch0 B) _); cbn [rbind]; [|discriminate].
  destruct (opacity_expr opacity (ch1 B) _); cbn [rbind]; [|discriminate].
  destruct (opacity_expr opacity (ch2 B) _); cbn [rbind]; [|discriminate].
  intros [= <-]. reflexivity.
Qed.

(** ** blend_images *)


(** C4. With an opacity other than 0, a mode tag that is neither empty nor
    "hard light" makes the blend fail with the [KnownUnknown] that names the
    tag, whatever the rasters and the mask are. *)
Theorem blend_images_unknown_mode (h : heap F) (bottom top : raster) (mask : mask_arg)
    (opacity : pynum) (name : string) (B : rgba (ndarray F)) :
  py_eq_zero opacity = false ->
  name <> ""%string -> name <> "hard light"%string ->
  holds h (chans bottom) B ->
  (blend_images bottom top mask opacity (Some name) h).1
  = Err (KnownUnknown (Unrecognized_blend_mode name)).
Proof.
  intros Ez Ne Nh (B0 & B1 & B2 & B3).
  assert (Hs : h ⊆ h) by reflexivity.
  change (wp (blend_images bottom top mask opacity (Some name)) h
            (fun r _ => r = Err (KnownUnknown (Unrecognized_blend_mode name)))).
  unfold blend_images, copy_all, numpy_copy. rewrite Ez.
  assert (Et : truthy_name (Some name) = true).
  { cbn. apply negb_true_iff. apply String.eqb_neq. exact Ne. }
  rewrite Et. cbn [negb].
  rewrite bool_decide_eq_false_2 by congruence.
  wp_run. reflexivity.
Qed.



(** Without any assumption on the shapes: a hard light blend that returns,
    returns the alpha channel of the bottom raster. *)
Lemma hard_light_alpha_any (h : heap F) (bottom top : raster) (mask : mask_arg)
    (opacity : pynum) (B T : rgba (ndarray F)) (mv : option (ndarray F)) :
  holds h (chans bottom) B -> holds h (chans top) T -> mask_holds h mask mv ->
  py_eq_zero opacity = false ->
  wp (blend_images bottom top mask opacity (Some "hard light"%string)) h
     (fun r h' => forall out, r = Ok out -> h' !! ch3 (chans out) = Some (ch3 B)).
Proof.
  intros HB HT Hm Ez.
  pose proof (blend_images_run h bottom top mask opacity (Some "hard light"%string)
                B T mv HB HT Hm) as R.
  unfold wp, blend_post in *. destruct R as [_ R].
  intros out E. rewrite E in R.
  destruct (blend_value B T mv opacity (Some "hard light"%string)) as [V|e] eqn:EV;
    [|discriminate R].
  destruct R as (o & [= ->] & (_ & _ & _ & H3) & _).
  rewrite (blend_value_hard_light_alpha _ _ _ _ _ Ez EV) in H3. exact H3.
Qed.
End BlendFacts.



(** ** blend_images on one-pixel rasters *)


(** With opacity 0 an unknown mode tag raises nothing: the copy of the
    bottom raster is returned before the mode is looked at. *)
Lemma blend_images_opacity_zero_unknown_mode :
  (blend_images Fixture.first Fixture.second (MaskChan 2%positive) (PyInt 0)
     (Some "multiply"%string) (Fixture.store (F32.of_Z 0) (F32.of_Z 1))).1
  = Ok (mk_raster true (mk_rgba 3 4 5 6)%positive).
Proof. vm_compute. reflexivity. Qed.

Lemma blend_images_unknown_mode_witness :
  py_eq_zero (PyInt 1) = false
  /\ (blend_images Fixture.first Fixture.second (MaskChan 2%positive) (PyInt 1)
        (Some "multiply"%string) (Fixture.store (F32.of_Z 0) (F32.of_Z 1))).1
     = Err (KnownUnknown (Unrecognized_blend_mode "multiply")).
Proof.
  split; [reflexivity|].
  apply (blend_images_unknown_mode _ _ _ _ _ _
           (rgba_map pixel (mk_rgba (F32.of_Z 0) (F32.of_Z 0) (F32.of_Z 0) (F32.of_Z 0))));
    [reflexivity | discriminate | discriminate | repeat split; reflexivity].
Defined.






(** ** Layer.render *)

Section Inversion.
Context {F : Type}.

Lemma bind_Ok_inv {A B} (m : M F A) (k : A -> M F B) (h h' : heap F) (y : B) :
  bind m k h = (Ok y, h') -> exists x h1, m h = (Ok x, h1) /\ k x h1 = (Ok y, h').
Proof.
  unfold bind. destruct (m h) as [[x|e] h1]; [eauto|discriminate].
Qed.

Lemma ret_Ok_inv {A} (x y : A) (h h' : heap F) : ret x h = (Ok y, h') -> x = y.
Proof. intros [= -> _]. reflexivity. Qed.
End Inversion.

Ltac invert_run :=
  repeat match goal with
    | H : bind _ _ _ = (Ok _, _) |- _ =>
        apply bind_Ok_inv in H; destruct H as (? & ? & ? & H)
    | H : ret _ _ = (Ok _, _) |- _ => apply ret_Ok_inv in H; subst
    | H : (if ?c then _ else _) _ = (Ok _, _) |- _ => destruct c eqn:?
    | H : match ?o with Some _ => _ | None => _ end _ = (Ok _, _) |- _ => destruct o eqn:?
    end.

(** When the statements before the combination return, a name is bound
    exactly when its attribute is truthy. *)
Lemma resolve_bound (self : layer) (config : Configuration) (input_img : image)
    (coord : Coordinate) (h h' : heap float32) (x : Layer.resolved) :
  Layer.resolve self config input_img coord h = (Ok x, h') ->
  bound (Layer.layer_of x) = truthy_name (layername self)
  /\ bound (Layer.color_of x) = truthy (colorname self)
  /\ bound (Layer.mask_of x) = truthy_name (maskname self).
Proof.
  unfold Layer.resolve. intros R.
  invert_run; cbn; auto.
Qed.

Lemma render_unfold (self : layer) (config : Configuration) (input_img : image)
    (coord : Coordinate) (h : heap float32) :
  Layer.render self config input_img coord h
  = match Layer.resolve self config input_img coord h with
    | (Ok x, h1) => bind (Layer.combine self x) _rgba2img h1
    | (Err e, h1) => (Err e, h1)
    end.
Proof. reflexivity. Qed.

(** C2. [Layer.render] fails in the three illegal cases.  Where the
    statements before the combination (fetching the source and the mask,
    parsing the colour, adjusting the source) raise, that exception is the
    failure; where they return, the failure is the [KnownUnknown] of the
    case: src, color and mask all set ("You can't specify src, color and mask
    together"), only a mask set ("You have to provide more than just a
    mask"), nothing set ("You have to at least some combination"). *)
Theorem layer_render_illegal (self : layer) (config : Configuration) (input_img : image)
    (coord : Coordinate) (h : heap float32) :
  (forall e, (Layer.resolve self config input_img coord h).1 = Err e ->
     (Layer.render self config input_img coord h).1 = Err e)
  /\ (forall x, (Layer.resolve self config input_img coord h).1 = Ok x ->
       (truthy_name (layername self) = true -> truthy (colorname self) = true ->
        truthy_name (maskname self) = true ->
        (Layer.render self config input_img coord h).1
        = Err (KnownUnknown (Cant_specify_src_color_and_mask_together
                               (layername self) (colorname self) (maskname self))))
       /\ (truthy_name (layername self) = false -> truthy (colorname self) = false ->
           truthy_name (maskname self) = true ->
           (Layer.render self config input_img coord h).1
           = Err (KnownUnknown (Have_to_provide_more_than_just_a_mask (maskname self))))
       /\ (truthy_name (layername self) = false -> truthy (colorname self) = false ->
           truthy_name (maskname self) = false ->
           (Layer.render self config input_img coord h).1
           = Err (KnownUnknown (Have_to_at_least_some_combination (maskname self))))).
Proof.
  rewrite render_unfold.
  destruct (Layer.resolve self config input_img coord h) as [[x|e] h'] eqn:R; cbn [fst].
  - split; [discriminate|]. intros ? [= <-].
    destruct (resolve_bound _ _ _ _ _ _ _ R) as (Hl & Hc & Hm).
    unfold bind, Layer.combine.
    repeat split; intros El Ec Em; rewrite El in Hl; rewrite Ec in Hc; rewrite Em in Hm;
      destruct (Layer.layer_of x), (Layer.color_of x), (Layer.mask_of x);
      try discriminate; reflexivity.
  - split; [|discriminate]. intros ? [= <-]. reflexivity.
Qed.

Lemma layer_render_illegal_witness :
  let img := PIL_new (3, 3)%nat transparent in
  let coord := mk_Coordinate 0 0 0 in
  let one := PyFloat (Py64.of_Z 1) in
  (Layer.render (mk_layer (Some "streets") (PyStr "#999") (Some "halos") one None None)
     Fixture.config img coord ∅).1
  = Err (KnownUnknown (Cant_specify_src_color_and_mask_together
                         (Some "streets") (PyStr "#999") (Some "halos")))
  /\ (Layer.render (mk_layer None PyNone (Some "halos") one None None)
        Fixture.config img coord ∅).1
     = Err (KnownUnknown (Have_to_provide_more_than_just_a_mask (Some "halos")))
  /\ (Layer.render (mk_layer None PyNone None one None None) Fixture.config img coord ∅).1
     = Err (KnownUnknown (Have_to_at_least_some_combination None)).
Proof.
  intros img coord one. split; [|split].
  - destruct (layer_render_illegal
                (mk_layer (Some "streets") (PyStr "#999") (Some "halos") one None None)
                Fixture.config img coord ∅) as [_ K].
    edestruct K as (K1 & _); [vm_compute; reflexivity|].
    apply K1; reflexivity.
  - destruct (layer_render_illegal
                (mk_layer None PyNone (Some "halos") one None None)
                Fixture.config img coord ∅) as [_ K].
    edestruct K as (_ & K2 & _); [vm_compute; reflexivity|].
    apply K2; reflexivity.
  - destruct (layer_render_illegal
                (mk_layer None PyNone None one None None)
                Fixture.config img coord ∅) as [_ K].
    edestruct K as (_ & _ & K3); [vm_compute; reflexivity|].
    apply K3; reflexivity.
Defined.

(** With src, color and mask all set the failure is not always the one of
    the combination: a colour that does not parse is refused first; and a
    mask alone, naming a layer the configuration does not have, fails with
    KeyError. *)
Lemma layer_render_fails_earlier :
  let img := PIL_new (3, 3)%nat transparent in
  let coord := mk_Coordinate 0 0 0 in
  let one := PyFloat (Py64.of_Z 1) in
  truthy_name (Some "streets"%string) = true /\ truthy (PyStr "red") = true
  /\ truthy_name (Some "halos"%string) = true
  /\ (Layer.render (mk_layer (Some "streets") (PyStr "red") (Some "halos") one None None)
        Fixture.config img coord ∅).1
     = Err (KnownUnknown (Color_must_start_with_hash "red"))
  /\ (Layer.render (mk_layer None PyNone (Some "clouds") one None None)
        Fixture.config img coord ∅).1
     = Err (KeyError "clouds").
Proof. repeat split; vm_compute; reflexivity. Qed.

(** The arrays of a well-formed image. *)
Lemma _img2rgba_wf (im : image) (h : heap float32) :
  wf_image im -> exists r h', _img2rgba im h = (Ok r, h').
Proof.
  intros W. unfold wf_image in W.
  assert (E : forall f : rgba ubyte -> ubyte,
             _img2arr (mk_image_L (im_size im) (map f (im_pixels im)))
             = Ok (mk_ndarray (snd (im_size im)) (fst (im_size im)) (map f (im_pixels im)))).
  { intros f. unfold _img2arr. cbn [band_size band_pixels].
    rewrite length_map, W, Nat.mul_comm, Nat.eqb_refl. reflexivity. }
  unfold _img2rgba, split, bind, lift, alloc. cbn [ch0 ch1 ch2 ch3].
  rewrite !E. eauto.
Qed.

(** A layer with nothing set fails with "You have to at least some
    combination" on every well-formed input image. *)
Lemma layer_render_nothing (self : layer) (config : Configuration) (input_img : image)
    (coord : Coordinate) (h : heap float32) :
  wf_image input_img ->
  truthy_name (layername self) = false -> truthy (colorname self) = false ->
  truthy_name (maskname self) = false ->
  (Layer.render self config input_img coord h).1
  = Err (KnownUnknown (Have_to_at_least_some_combination (maskname self))).
Proof.
  intros W El Ec Em.
  destruct (_img2rgba_wf input_img h W) as (r & h' & E).
  unfold Layer.render, Layer.resolve, bind. rewrite E, El, Ec, Em. reflexivity.
Qed.

(** ** The regression fixtures of CompositeTests *)

Lemma test0 :
  Fixture.getpixels
    (Stack [Fixture.json_layer (Some "base") PyNone None;
            Stack [Fixture.json_layer (Some "outlines") PyNone None;
                   Fixture.json_layer (Some "streets") PyNone None]])
  = Ok [[204; 204; 204; 255]; [153; 153; 153; 255]; [255; 255; 255; 255];
        [153; 153; 153; 255]; [255; 255; 255; 255]; [153; 153; 153; 255];
        [255; 255; 255; 255]; [153; 153; 153; 255]; [204; 204; 204; 255]].
Proof. vm_compute. reflexivity. Qed.

Lemma test1 :
  Fixture.getpixels
    (Stack [Fixture.json_layer (Some "base") PyNone None;
            Stack [Fixture.json_layer (Some "outlines") PyNone (Some "halos");
                   Fixture.json_layer (Some "streets") PyNone None]])
  = Ok [[204; 204; 204; 255]; [153; 153; 153; 255]; [255; 255; 255; 255];
        [153; 153; 153; 255]; [255; 255; 255; 255]; [204; 204; 204; 255];
        [255; 255; 255; 255]; [204; 204; 204; 255]; [204; 204; 204; 255]].
Proof. vm_compute. reflexivity. Qed.

Lemma test2 :
  Fixture.getpixels
    (Stack [Fixture.json_layer None (PyStr "#ccc") None;
            Stack [Fixture.json_layer (Some "outlines") PyNone (Some "halos");
                   Fixture.json_layer (Some "streets") PyNone None]])
  = Ok [[204; 204; 204; 255]; [153; 153; 153; 255]; [255; 255; 255; 255];
        [153; 153; 153; 255]; [255; 255; 255; 255]; [204; 204; 204; 255];
        [255; 255; 255; 255]; [204; 204; 204; 255]; [204; 204; 204; 255]].
Proof. vm_compute. reflexivity. Qed.

Lemma test3 :
  Fixture.getpixels
    (Stack [Fixture.json_layer None (PyStr "#ccc") None;
            Stack [Fixture.json_layer None (PyStr "#999") (Some "halos");
                   Fixture.json_layer (Some "streets") PyNone None]])
  = Ok [[153; 153; 153; 255]; [153; 153; 153; 255]; [255; 255; 255; 255];
        [153; 153; 153; 255]; [255; 255; 255; 255]; [204; 204; 204; 255];
        [255; 255; 255; 255]; [204; 204; 204; 255]; [204; 204; 204; 255]].
Proof. vm_compute. reflexivity. Qed.

Lemma test4 :
  Fixture.getpixels
    (Stack [Stack [Fixture.json_layer None (PyStr "#999") (Some "halos");
                   Fixture.json_layer (Some "streets") PyNone None]])
  = Ok [[153; 153; 153; 255]; [153; 153; 153; 255]; [255; 255; 255; 255];
        [153; 153; 153; 255]; [255; 255; 255; 255]; [0; 0; 0; 0];
        [255; 255; 255; 255]; [0; 0; 0; 0]; [0; 0; 0; 0]].
Proof. vm_compute. reflexivity. Qed.

Lemma test5 :
  Fixture.getpixels (Fixture.json_layer (Some "streets") (PyStr "#999") (Some "halos"))
  = Err (KnownUnknown (Cant_specify_src_color_and_mask_together
                         (Some "streets") (PyStr "#999") (Some "halos")))
  /\ Fixture.getpixels (Fixture.json_layer None PyNone (Some "halos"))
     = Err (KnownUnknown (Have_to_provide_more_than_just_a_mask (Some "halos")))
  /\ Fixture.getpixels (Fixture.json_layer None PyNone None)
     = Err (KnownUnknown (Have_to_at_least_some_combination None)).
Proof. repeat split; vm_compute; reflexivity. Qed.

(** * Further properties *)

(** ** make_color, channel by channel *)

Lemma all_ascii_complete (c : ascii) : In c all_ascii.
Proof.
  unfold all_ascii. apply in_map_iff. exists (nat_of_ascii c).
  split; [apply ascii_nat_embedding|].
  apply in_seq. pose proof (nat_ascii_bounded c). lia.
Qed.

(** A property checked on every pair of characters holds of all of them. *)
Lemma ascii_pairs (P : ascii -> ascii -> bool) :
  forallb (fun a => forallb (P a) all_ascii) all_ascii = true ->
  forall a b, P a b = true.
Proof.
  intros E a b. rewrite forallb_forall in E.
  specialize (E a (all_ascii_complete a)). rewrite forallb_forall in E.
  exact (E b (all_ascii_complete b)).
Qed.

Lemma option_Z_eqb_eq (x y : option Z) : option_Z_eqb x y = true -> x = y.
Proof.
  destruct x, y; cbn; try discriminate; [|reflexivity].
  intros E. apply Z.eqb_eq in E. congruence.
Qed.

(** [int(.., 16)] on the two characters of a channel. *)
Lemma int16_channel (a b : ascii) : int16 [a; b] = channel_value a b.
Proof.
  apply option_Z_eqb_eq.
  apply (ascii_pairs (fun a b => option_Z_eqb (int16 [a; b]) (channel_value a b))).
  vm_compute. reflexivity.
Qed.

Lemma channel_value_twice (c : ascii) :
  channel_value c c = match hex_digit c with Some x => Some (17 * x) | None => None end.
Proof.
  unfold channel_value. destruct (hex_digit c); [f_equal; lia | reflexivity].
Qed.

(** The long forms: a colour of six or eight characters is read channel
    by channel. *)
Lemma make_color_long_eq (r1 r2 g1 g2 b1 b2 a1 a2 : ascii) :
  make_color (hash_color [r1; r2; g1; g2; b1; b2])
  = match channel_value r1 r2, channel_value g1 g2, channel_value b1 b2 with
    | Some r, Some g, Some b => Ok (mk_rgba r g b 255)
    | _, _, _ =>
        Err (KnownUnknown (Color_must_be_made_up_of_valid_hex_chars
               (string_of_list_ascii ["#"; r1; r2; g1; g2; b1; b2]%char)))
    end
  /\ make_color (hash_color [r1; r2; g1; g2; b1; b2; a1; a2])
     = match channel_value r1 r2, channel_value g1 g2, channel_value b1 b2,
             channel_value a1 a2 with
       | Some r, Some g, Some b, Some a => Ok (mk_rgba r g b a)
       | _, _, _, _ =>
           Err (KnownUnknown (Color_must_be_made_up_of_valid_hex_chars
                  (string_of_list_ascii ["#"; r1; r2; g1; g2; b1; b2; a1; a2]%char)))
       end.
Proof.
  unfold make_color, hash_color. rewrite !list_ascii_of_string_of_list_ascii.
  split; cbn -[int16 string_of_list_ascii]; rewrite !int16_channel;
    repeat (destruct (channel_value _ _)); reflexivity.
Qed.

(** The short forms: every character is doubled. *)
Lemma make_color_short_eq (r g b a : ascii) :
  make_color (hash_color [r; g; b])
  = match hex_digit r, hex_digit g, hex_digit b with
    | Some x, Some y, Some z => Ok (mk_rgba (17 * x) (17 * y) (17 * z) 255)
    | _, _, _ =>
        Err (KnownUnknown (Color_must_be_made_up_of_valid_hex_chars
               (string_of_list_ascii ["#"; r; r; g; g; b; b]%char)))
    end
  /\ make_color (hash_color [r; g; b; a])
     = match hex_digit r, hex_digit g, hex_digit b, hex_digit a with
       | Some x, Some y, Some z, Some w => Ok (mk_rgba (17 * x) (17 * y) (17 * z) (17 * w))
       | _, _, _, _ =>
           Err (KnownUnknown (Color_must_be_made_up_of_valid_hex_chars
                  (string_of_list_ascii ["#"; r; r; g; g; b; b; a; a]%char)))
       end.
Proof.
  unfold make_color, hash_color. rewrite !list_ascii_of_string_of_list_ascii.
  split; cbn -[int16 string_of_list_ascii]; rewrite !int16_channel, !channel_value_twice;
    repeat (destruct (hex_digit _)); reflexivity.
Qed.

(** A value [make_color] accepts is a string of [#] and 3, 4, 6 or 8 more
    characters. *)
Lemma make_color_Ok_inv (color : pyvalue) (c : rgba Z) :
  make_color color = Ok c ->
  exists digits, color = hash_color digits /\ length digits ∈ [3; 4; 6; 8]%nat.
Proof.
  destruct color as [| | |text|]; try discriminate. unfold make_color.
  destruct (list_ascii_of_string text) as [|first digits] eqn:E; [discriminate|].
  destruct (Ascii.eqb first "#") eqn:Ef; [|discriminate]. cbn [negb].
  apply Ascii.eqb_eq in Ef. subst first.
  destruct (bool_decide (length ("#"%char :: digits) ∈ [4; 5; 7; 9]%nat)) eqn:El; [|discriminate].
  intros _. exists digits. split.
  - unfold hash_color. rewrite <- E, string_of_list_ascii_of_string. reflexivity.
  - apply bool_decide_eq_true in El. cbn [length] in El. set_unfold. lia.
Qed.

Lemma channel_value_range (a b : ascii) (n : Z) :
  channel_value a b = Some n -> -15 <= n <= 255 /\ (a <> "-"%char -> 0 <= n).
Proof.
  unfold channel_value.
  destruct (hex_digit a) as [x|] eqn:Ha, (hex_digit b) as [y|] eqn:Hb.
  - destruct (hex_digit_facts _ _ Ha) as (_ & _ & _ & _ & ?).
    destruct (hex_digit_facts _ _ Hb) as (_ & _ & _ & _ & ?).
    intros [= <-]. lia.
  - destruct (hex_digit_facts _ _ Ha) as (_ & _ & _ & _ & ?).
    destruct (is_space b); [|discriminate]. intros [= <-]. lia.
  - destruct (hex_digit_facts _ _ Hb) as (_ & _ & _ & _ & ?).
    destruct (Ascii.eqb a "-") eqn:Ea.
    + apply Ascii.eqb_eq in Ea. intros [= <-]. split; [lia | congruence].
    + destruct (_ || _); [|discriminate]. intros [= <-]. lia.
  - discriminate.
Qed.

(** X2. Whatever [make_color] returns, its four channels lie between -15
    and 255; they are bytes when the string holds no minus sign. *)
Theorem make_color_range (color : pyvalue) (c : rgba Z) :
  make_color color = Ok c ->
  Forall (fun z => -15 <= z <= 255) (rgba_list c)
  /\ ((forall text, color = PyStr text -> ~ In "-"%char (list_ascii_of_string text)) ->
      Forall is_byte (rgba_list c)).
Proof.
  intros E. destruct (make_color_Ok_inv _ _ E) as (ds & -> & L).
  assert (M : forall x, In x ds -> (forall text, hash_color ds = PyStr text ->
                ~ In "-"%char (list_ascii_of_string text)) -> x <> "-"%char).
  { intros x Hx N ->. apply (N _ eq_refl).
    rewrite list_ascii_of_string_of_list_ascii. right. exact Hx. }
  unfold is_byte.
  destruct ds as [|r1 [|r2 [|g1 [|g2 [|b1 [|b2 [|a1 [|a2 [|? ?]]]]]]]]];
    try (exfalso; set_unfold; cbn in L; lia).
  - destruct (make_color_short_eq r1 r2 g1 r1) as [S _]. rewrite S in E.
    destruct (hex_digit r1) as [x|] eqn:H1; [|discriminate].
    destruct (hex_digit r2) as [y|] eqn:H2; [|discriminate].
    destruct (hex_digit g1) as [z|] eqn:H3; [|discriminate].
    destruct (hex_digit_facts _ _ H1) as (_ & _ & _ & _ & ?).
    destruct (hex_digit_facts _ _ H2) as (_ & _ & _ & _ & ?).
    destruct (hex_digit_facts _ _ H3) as (_ & _ & _ & _ & ?).
    injection E as <-. split; [|intros _]; repeat constructor; cbn; lia.
  - destruct (make_color_short_eq r1 r2 g1 g2) as [_ S]. rewrite S in E.
    destruct (hex_digit r1) as [x|] eqn:H1; [|discriminate].
    destruct (hex_digit r2) as [y|] eqn:H2; [|discriminate].
    destruct (hex_digit g1) as [z|] eqn:H3; [|discriminate].
    destruct (hex_digit g2) as [w|] eqn:H4; [|discriminate].
    destruct (hex_digit_facts _ _ H1) as (_ & _ & _ & _ & ?).
    destruct (hex_digit_facts _ _ H2) as (_ & _ & _ & _ & ?).
    destruct (hex_digit_facts _ _ H3) as (_ & _ & _ & _ & ?).
    destruct (hex_digit_facts _ _ H4) as (_ & _ & _ & _ & ?).
    injection E as <-. split; [|intros _]; repeat constructor; cbn; lia.
  - destruct (make_color_long_eq r1 r2 g1 g2 b1 b2 r1 r1) as [S _]. rewrite S in E.
    destruct (channel_value r1 r2) as [x|] eqn:H1; [|discriminate].
    destruct (channel_value g1 g2) as [y|] eqn:H2; [|discriminate].
    destruct (channel_value b1 b2) as [z|] eqn:H3; [|discriminate].
    destruct (channel_value_range _ _ _ H1) as [? P1].
    destruct (channel_value_range _ _ _ H2) as [? P2].
    destruct (channel_value_range _ _ _ H3) as [? P3].
    injection E as <-. split; [repeat constructor; cbn; lia|].
    intros N.
    specialize (P1 (M r1 ltac:(cbn; tauto) N)).
    specialize (P2 (M g1 ltac:(cbn; tauto) N)).
    specialize (P3 (M b1 ltac:(cbn; tauto) N)).
    repeat constructor; cbn; lia.
  - destruct (make_color_long_eq r1 r2 g1 g2 b1 b2 a1 a2) as [_ S]. rewrite S in E.
    destruct (channel_value r1 r2) as [x|] eqn:H1; [|discriminate].
    destruct (channel_value g1 g2) as [y|] eqn:H2; [|discriminate].
    destruct (channel_value b1 b2) as [z|] eqn:H3; [|discriminate].
    destruct (channel_value a1 a2) as [w|] eqn:H4; [|discriminate].
    destruct (channel_value_range _ _ _ H1) as [? P1].
    destruct (channel_value_range _ _ _ H2) as [? P2].
    destruct (channel_value_range _ _ _ H3) as [? P3].
    destruct (channel_value_range _ _ _ H4) as [? P4].
    injection E as <-. split; [repeat constructor; cbn; lia|].
    intros N.
    specialize (P1 (M r1 ltac:(cbn; tauto) N)).
    specialize (P2 (M g1 ltac:(cbn; tauto) N)).
    specialize (P3 (M b1 ltac:(cbn; tauto) N)).
    specialize (P4 (M a1 ltac:(cbn; tauto) N)).
    repeat constructor; cbn; lia.
Qed.

Lemma make_color_range_witness :
  make_color (PyStr "#-f0a9b") = Ok (mk_rgba (-15) 10 155 255)
  /\ Forall (fun z => -15 <= z <= 255) (rgba_list (mk_rgba (-15) 10 155 255)).
Proof.
  assert (E : make_color (PyStr "#-f0a9b") = Ok (mk_rgba (-15) 10 155 255)) by reflexivity.
  split; [exact E | exact (proj1 (make_color_range _ _ E))].
Defined.

Lemma make_color_hash_length (digits : list ascii) (c : rgba Z) :
  make_color (hash_color digits) = Ok c -> length digits ∈ [3; 4; 6; 8]%nat.
Proof.
  intros E. destruct (make_color_Ok_inv _ _ E) as (ds & Eh & L).
  unfold hash_color in Eh. injection Eh as Eh.
  apply (f_equal list_ascii_of_string) in Eh.
  rewrite !list_ascii_of_string_of_list_ascii in Eh. congruence.
Qed.

Lemma channel_value_upper (a b : ascii) :
  channel_value (upper a) (upper b) = channel_value a b.
Proof.
  apply option_Z_eqb_eq.
  apply (ascii_pairs (fun a b =>
           option_Z_eqb (channel_value (upper a) (upper b)) (channel_value a b))).
  vm_compute. reflexivity.
Qed.

Lemma hex_digit_upper (c : ascii) : hex_digit (upper c) = hex_digit c.
Proof.
  pose proof (channel_value_upper c c) as E. rewrite !channel_value_twice in E.
  destruct (hex_digit (upper c)), (hex_digit c); try discriminate; [|reflexivity].
  injection E as E. f_equal. lia.
Qed.

(** X3. Colours are read without regard to case: the upper-cased string is
    accepted exactly when the string is, with the same four channels. *)
Theorem make_color_upper (digits : list ascii) (c : rgba Z) :
  make_color (hash_color (map upper digits)) = Ok c <-> make_color (hash_color digits) = Ok c.
Proof.
  assert (L : length (map upper digits) = length digits) by apply length_map.
  destruct digits as [|r1 [|r2 [|g1 [|g2 [|b1 [|b2 [|a1 [|a2 [|? ?]]]]]]]]];
    try (split; intros E; apply make_color_hash_length in E;
         exfalso; rewrite ?L in E; set_unfold; cbn in E; lia).
  - cbn [map]. destruct (make_color_short_eq (upper r1) (upper r2) (upper g1) r1) as [-> _].
    destruct (make_color_short_eq r1 r2 g1 r1) as [-> _].
    rewrite !hex_digit_upper.
    repeat (destruct (hex_digit _)); split; intros E; try discriminate E; exact E.
  - cbn [map].
    destruct (make_color_short_eq (upper r1) (upper r2) (upper g1) (upper g2)) as [_ ->].
    destruct (make_color_short_eq r1 r2 g1 g2) as [_ ->].
    rewrite !hex_digit_upper.
    repeat (destruct (hex_digit _)); split; intros E; try discriminate E; exact E.
  - cbn [map].
    destruct (make_color_long_eq (upper r1) (upper r2) (upper g1) (upper g2) (upper b1) (upper b2)
                r1 r1) as [-> _].
    destruct (make_color_long_eq r1 r2 g1 g2 b1 b2 r1 r1) as [-> _].
    rewrite !channel_value_upper.
    repeat (destruct (channel_value _ _)); split; intros E; try discriminate E; exact E.
  - cbn [map].
    destruct (make_color_long_eq (upper r1) (upper r2) (upper g1) (upper g2) (upper b1) (upper b2)
                (upper a1) (upper a2)) as [_ ->].
    destruct (make_color_long_eq r1 r2 g1 g2 b1 b2 a1 a2) as [_ ->].
    rewrite !channel_value_upper.
    repeat (destruct (channel_value _ _)); split; intros E; try discriminate E; exact E.
Qed.

Lemma make_color_upper_witness :
  make_color (hash_color (map upper ["a"; "b"; "c"]%char)) = Ok (mk_rgba 170 187 204 255).
Proof.
  apply (proj2 (make_color_upper ["a"; "b"; "c"]%char (mk_rgba 170 187 204 255))).
  reflexivity.
Defined.





(** ** Outcomes of make_color and of apply_adjustments *)

Lemma channels_outcome (r g b a : option Z) (text : string) (e : exn) :
  match r, g, b, a with
  | Some r, Some g, Some b, Some a => Ok (mk_rgba r g b a)
  | _, _, _, _ => Err (KnownUnknown (Color_must_be_made_up_of_valid_hex_chars text))
  end = Err e ->
  is_InvalidColor e = true.
Proof. destruct r, g, b, a; intros [= <-]; reflexivity. Qed.

(** X4. [make_color] returns only on a string of [#] and 3, 4, 6 or
    8 more characters; it raises IndexError on the empty string and on
    nothing else, and every other failure is one of its four KnownUnknown
    messages. *)
Theorem make_color_outcomes (color : pyvalue) :
  match make_color color with
  | Ok c => exists digits, color = hash_color digits /\ length digits ∈ [3; 4; 6; 8]%nat
  | Err e =>
      (color = PyStr ""%string /\ e = IndexError)
      \/ (color <> PyStr ""%string /\ is_InvalidColor e = true)
  end.
Proof.
  destruct (make_color color) as [c|e] eqn:E; [exact (make_color_Ok_inv color c E)|].
  destruct color as [| | |text|];
    try (injection E as <-; right; split; [discriminate|reflexivity]).
  destruct text as [|first text].
  - injection E as <-. left. split; reflexivity.
  - right. split; [discriminate|].
    unfold make_color in E. cbn [list_ascii_of_string] in E.
    destruct (negb (Ascii.eqb first "#")); [injection E as <-; reflexivity|].
    destruct (negb (bool_decide _)); [injection E as <-; reflexivity|].
    exact (channels_outcome _ _ _ _ _ _ E).
Qed.

Lemma apply_each_unknown (adjustments : list (string * list Z)) (name : string)
    (args : list Z) :
  In (name, args) adjustments -> name <> "curves"%string ->
  forall (given : raster) (h : heap float32),
    exists e, (apply_each given adjustments h).1 = Err e.
Proof.
  intros Hin Hn. induction adjustments as [|[n a] rest IH]; [destruct Hin|].
  intros given h. cbn [apply_each].
  destruct (String.eqb n "curves") eqn:En.
  - destruct Hin as [[= -> ->] | Hin]; [apply String.eqb_eq in En; contradiction|].
    destruct a as [|black [|grey [|white [|]]]]; try (eexists; reflexivity).
    unfold bind.
    destruct (apply_curves_adjustment given black grey white h) as [[adjusted|e] h1].
    + apply (IH Hin).
    + eexists. reflexivity.
  - eexists. reflexivity.
Qed.

(** X11. A list of adjustments that holds a name other than curves
    never returns, wherever the name stands in the list and whatever the
    other adjustments are. *)
Theorem apply_adjustments_unknown (given : raster) (adjustments : list (string * list Z))
    (name : string) (args : list Z) (h : heap float32) :
  In (name, args) adjustments -> name <> "curves"%string ->
  exists e, (apply_adjustments given (Some adjustments) h).1 = Err e.
Proof.
  intros Hin Hn. exact (apply_each_unknown adjustments name args Hin Hn given h).
Qed.

Lemma apply_adjustments_unknown_witness :
  exists e,
    (apply_adjustments Fixture.second
       (Some [("curves"%string, [0; 128; 255]); ("levels"%string, [1; 2])])
       (Fixture.store (F32.of_Z 0) (F32.of_Z 1))).1 = Err e.
Proof.
  assert (Hn : "levels"%string <> "curves"%string) by discriminate.
  exact (apply_adjustments_unknown Fixture.second
           [("curves"%string, [0; 128; 255]); ("levels"%string, [1; 2])]
           "levels"%string [1; 2] (Fixture.store (F32.of_Z 0) (F32.of_Z 1))
           (or_intror (or_introl eq_refl)) Hn).
Defined.


(** ** Images and arrays *)

Ltac wp_go :=
  repeat first
    [ lazymatch goal with
      | |- wp (lift (Ok _)) _ _ => apply wp_lift; cbv beta iota
      | |- wp (lift (Err _)) _ _ => apply wp_lift; cbv beta iota
      end
    | wp_step ].

(** A byte survives the way to float32 and back. *)
Lemma quantize_unit_float (b : ubyte) : quantize (unit_float b) = b.
Proof. destruct b; vm_compute; reflexivity. Qed.

Lemma zip4_channels {X} (pixels : list (rgba X)) :
  zip4 (map ch0 pixels) (map ch1 pixels) (map ch2 pixels) (map ch3 pixels) = pixels.
Proof.
  induction pixels as [|[x y z w] pixels IH]; [reflexivity|].
  cbn. f_equal. exact IH.
Qed.

Lemma img2arr_band (im : image) (f : rgba ubyte -> ubyte) :
  wf_image im ->
  _img2arr (mk_image_L (im_size im) (map f (im_pixels im)))
  = Ok (mk_ndarray (snd (im_size im)) (fst (im_size im)) (map f (im_pixels im))).
Proof.
  intros W. unfold wf_image in W. unfold _img2arr. cbn [band_size band_pixels].
  rewrite length_map, W, Nat.mul_comm, Nat.eqb_refl. reflexivity.
Qed.

Lemma arr2img_band (im : image) (f : rgba ubyte -> ubyte) :
  wf_image im ->
  _arr2img (arr_map quantize
              (arr_map unit_float
                 (mk_ndarray (snd (im_size im)) (fst (im_size im)) (map f (im_pixels im)))))
  = Ok (mk_image_L (im_size im) (map f (im_pixels im))).
Proof.
  intros W. unfold wf_image in W. unfold _arr2img, arr_map. cbn [cells nrows ncols].
  rewrite !length_map, W, Nat.eqb_refl.
  rewrite <- !list_fmap_compose.
  rewrite (list_fmap_ext (quantize ∘ unit_float ∘ f) f (im_pixels im))
    by (intros; cbn; apply quantize_unit_float).
  destruct (im_size im). reflexivity.
Qed.

(** X5. Round trip: the four float arrays [_img2rgba] makes of a
    well-formed image are turned back by [_rgba2img] into the same image,
    byte for byte; the store only gains arrays. *)
Theorem img2rgba_rgba2img (im : image) (h : heap float32) :
  wf_image im ->
  wp (let* rgba := _img2rgba im in _rgba2img rgba) h
     (fun r h' => r = Ok im /\ h ⊆ h').
Proof.
  intros W. assert (Hs : h ⊆ h) by reflexivity.
  unfold _img2rgba, _rgba2img, split. cbn [ch0 ch1 ch2 ch3].
  rewrite !(img2arr_band im _ W).
  wp_go. cbn [negb is_list].
  wp_go;
    repeat match goal with
      | E : _arr2img _ = _ |- _ =>
          rewrite (arr2img_band im _ W) in E; first [discriminate E | injection E as <-]
      end;
    match goal with
    | E : merge _ = _ |- _ =>
        unfold merge in E; cbn [ch0 ch1 ch2 ch3 band_size band_pixels] in E;
        rewrite bool_decide_eq_true_2 in E by (repeat split; reflexivity);
        rewrite zip4_channels in E; first [discriminate E | injection E as <-]
    end.
  split; [destruct im; reflexivity | exact Hs].
Qed.


(** ** blend_images, cell by cell *)

Lemma wp_mono {F A} (m : M F A) (h : heap F) (Q Q' : result A -> heap F -> Prop) :
  wp m h Q -> (forall r h', Q r h' -> Q' r h') -> wp m h Q'.
Proof. unfold wp. auto. Qed.

Section CellFacts.
Context {F : Type} `{Dtype F}.

Lemma paste_cells (ms bs ts : list F) :
  length bs = length ms -> length ts = length ms ->
  zip_with dt_add (zip_with dt_mul (map (dt_sub one) ms) bs) (zip_with dt_mul ms ts)
  = map3 paste_cell ms bs ts.
Proof.
  revert bs ts. induction ms as [|m ms IH]; intros [|b bs] [|t ts] Lb Lt;
    try discriminate; [reflexivity|].
  cbn. f_equal. apply IH; cbn in *; congruence.
Qed.

Lemma alpha_cells (bs ts ms : list F) :
  length ts = length bs -> length ms = length bs ->
  map (dt_sub one)
    (zip_with dt_mul (map (dt_sub one) bs) (map (dt_sub one) (zip_with dt_mul ts ms)))
  = map3 alpha_cell bs ts ms.
Proof.
  revert ts ms. induction bs as [|b bs IH]; intros [|t ts] [|m ms] Lt Lm;
    try discriminate; [reflexivity|].
  cbn. f_equal. apply IH; cbn in *; congruence.
Qed.

Lemma lerp_cells (opacity : pynum) (bs os : list F) :
  zip_with dt_add (map (dt_mul (dt_of_num (py_one_minus opacity))) bs)
    (map (dt_mul (dt_of_num opacity)) os)
  = zip_with (lerp_cell opacity) bs os.
Proof.
  revert os. induction bs as [|b bs IH]; intros [|o os]; try reflexivity.
  cbn. f_equal. apply IH.
Qed.

Lemma length_map3 {A B C D} (f : A -> B -> C -> D) xs ys zs :
  length ys = length xs -> length zs = length xs -> length (map3 f xs ys zs) = length xs.
Proof.
  revert ys zs. induction xs as [|x xs IH]; intros [|y ys] [|z zs] Ly Lz;
    try discriminate; [reflexivity|].
  cbn. f_equal. apply IH; cbn in *; congruence.
Qed.

(** A masked assignment of values computed from the selected cells is a
    cell by cell choice. *)
Lemma put_select (p : F -> bool) (f : F -> F -> F) (os bs ts : list F) :
  length os = length ts -> length bs = length ts ->
  put (map p ts) os
    (zip_with f (map snd (filter (fun q => fst q = true) (zip (map p ts) bs)))
                (map snd (filter (fun q => fst q = true) (zip (map p ts) ts))))
  = map3 (fun o b t => if p t then f b t else o) os bs ts.
Proof.
  revert os bs. induction ts as [|t ts IH]; intros [|o os] [|b bs] Lo Lb;
    try discriminate; [reflexivity|].
  cbn [map zip zip_with]. rewrite !filter_cons. cbn [fst].
  destruct (p t) eqn:Ep.
  - destruct (decide (true = true)) as [_|N]; [|destruct (N eq_refl)].
    cbn. rewrite Ep. f_equal. apply IH; cbn in *; congruence.
  - destruct (decide (false = true)) as [N|_]; [discriminate N|].
    cbn. rewrite Ep. f_equal. apply IH; cbn in *; congruence.
Qed.
End CellFacts.

Section BlendCellFacts.
Context {F : Type} `{Dtype F}.

Lemma hard_cells (bs ts : list F) :
  length bs = length ts ->
  map3 (fun o b t =>
          if dt_leb half t
          then dt_sub one (dt_mul (dt_mul two (dt_sub one b)) (dt_sub one t)) else o)
    (map3 (fun o b t => if dt_ltb t half then dt_mul (dt_mul two b) t else o) bs bs ts)
    bs ts
  = zip_with hard_cell bs ts.
Proof.
  revert ts. induction bs as [|b bs IH]; intros [|t ts] L; try discriminate; [reflexivity|].
  cbn. unfold hard_cell at 1. f_equal. apply IH. cbn in L. congruence.
Qed.

Lemma dark_values (sb st : list F) :
  zip_with dt_mul (map (dt_mul two) sb) st
  = zip_with (fun b t => dt_mul (dt_mul two b) t) sb st.
Proof.
  revert st. induction sb as [|b sb IH]; intros [|t st]; try reflexivity.
  cbn. f_equal. apply IH.
Qed.

Lemma light_values (sb st : list F) :
  map (dt_sub one)
    (zip_with dt_mul (map (fun x => dt_mul two (dt_sub one x)) sb) (map (dt_sub one) st))
  = zip_with (fun b t => dt_sub one (dt_mul (dt_mul two (dt_sub one b)) (dt_sub one t))) sb st.
Proof.
  revert st. induction sb as [|b sb IH]; intros [|t st]; try reflexivity.
  cbn. f_equal. apply IH.
Qed.

Lemma selected_length {X} (xs : list X) (mask : list bool) :
  length xs = length mask ->
  length (filter (fun p => fst p = true) (zip mask xs)) = count_true mask.
Proof. intros L. rewrite <- (select_length xs mask L), length_map. reflexivity. Qed.

(** The two masked assignments of the hard light branch amount to a cell
    by cell choice. *)
Lemma hard_light_expr_cells sh (b t : ndarray F) :
  geometry sh b -> geometry sh t ->
  hard_light_expr b t = Ok (grid sh (zip_with hard_cell (cells b) (cells t))).
Proof.
  intros [Eb Lb] [Et Lt].
  destruct b as [rb cb bs], t as [rt ct ts]. unfold shape in Eb, Et. cbn in Eb, Et, Lb, Lt.
  subst sh. injection Et as -> ->. cbn [fst snd] in *.
  assert (L : length bs = length ts) by congruence.
  unfold hard_light_expr, dark_expr, light_expr, select, assign_masked, same_shape, vec_map2,
    arr_map, grid, shape.
  cbn [nrows ncols cells]. rewrite !Nat.eqb_refl. cbn [andb rbind].
  rewrite ?length_map, ?length_zip_with, ?length_map, !selected_length
    by (rewrite ?length_map; auto).
  rewrite ?Nat.min_id, !Nat.eqb_refl. cbn [rbind nrows ncols cells].
  rewrite ?length_map, ?length_zip_with, ?length_map, !selected_length
    by (rewrite ?length_map; auto).
  rewrite ?Nat.min_id, !Nat.eqb_refl. cbn [andb rbind nrows ncols cells].
  rewrite dark_values, light_values.
  rewrite (put_select (fun x => dt_ltb x half)) by auto.
  rewrite (put_select (fun x => dt_leb half x)
             (fun b t => dt_sub one (dt_mul (dt_mul two (dt_sub one b)) (dt_sub one t))))
    by (rewrite ?length_map3; auto).
  rewrite hard_cells by auto. rewrite ?Nat.eqb_refl. reflexivity.
Qed.

Lemma paste_expr_cells sh (m b t : ndarray F) :
  geometry sh m -> geometry sh b -> geometry sh t ->
  paste_expr m b t = Ok (grid sh (map3 paste_cell (cells m) (cells b) (cells t))).
Proof.
  intros Gm Gb Gt. unfold paste_expr.
  rewrite (arr_map2_geometry _ sh) by auto using geometry_map. cbn [rbind].
  rewrite (arr_map2_geometry _ sh) by auto. cbn [rbind].
  rewrite (arr_map2_geometry _ sh) by auto using geometry_zip, geometry_map.
  cbn [cells arr_map]. rewrite paste_cells; [reflexivity| |].
  - destruct Gb as [_ ->], Gm as [_ ->]. reflexivity.
  - destruct Gt as [_ ->], Gm as [_ ->]. reflexivity.
Qed.

Lemma opacity_expr_cells sh opacity (b o : ndarray F) :
  geometry sh b -> geometry sh o ->
  opacity_expr opacity b o = Ok (grid sh (zip_with (lerp_cell opacity) (cells b) (cells o))).
Proof.
  intros Gb Go. unfold opacity_expr.
  rewrite (arr_map2_geometry _ sh) by auto using geometry_map.
  cbn [cells arr_map]. rewrite lerp_cells. reflexivity.
Qed.

Lemma geometry_grid sh (xs : list F) :
  length xs = (fst sh * snd sh)%nat -> geometry sh (grid sh xs).
Proof. intros L. split; [destruct sh; reflexivity|exact L]. Qed.

Lemma lerp_map3 opacity (f : F -> F -> F -> F) (ms bs ts : list F) :
  length bs = length ms -> length ts = length ms ->
  zip_with (lerp_cell opacity) bs (map3 f ms bs ts)
  = map3 (fun m b t => lerp_cell opacity b (f m b t)) ms bs ts.
Proof.
  revert bs ts. induction ms as [|m ms IH]; intros [|b bs] [|t ts] Lb Lt;
    try discriminate; [reflexivity|].
  cbn. f_equal. apply IH; cbn in *; congruence.
Qed.

Lemma lerp_zip opacity (f : F -> F -> F) (bs ts : list F) :
  zip_with (lerp_cell opacity) bs (zip_with f bs ts)
  = zip_with (fun b t => lerp_cell opacity b (f b t)) bs ts.
Proof.
  revert ts. induction bs as [|b bs IH]; intros [|t ts]; try reflexivity.
  cbn. f_equal. apply IH.
Qed.

Lemma plain_channel sh opacity (m b t : ndarray F) :
  geometry sh m -> geometry sh b -> geometry sh t ->
  (let? o := paste_expr m b t in opacity_expr opacity b o)
  = Ok (grid sh (map3 (plain_cell opacity) (cells m) (cells b) (cells t))).
Proof.
  intros Gm Gb Gt.
  assert (Lb : length (cells b) = length (cells m))
    by (destruct Gb as [_ ->], Gm as [_ ->]; reflexivity).
  assert (Lt : length (cells t) = length (cells m))
    by (destruct Gt as [_ ->], Gm as [_ ->]; reflexivity).
  rewrite (paste_expr_cells sh) by auto. cbn [rbind].
  rewrite (opacity_expr_cells sh); [|auto|].
  - cbn [grid cells]. rewrite lerp_map3 by auto. reflexivity.
  - apply geometry_grid. rewrite length_map3 by auto. apply Gm.
Qed.

Lemma hard_light_channel sh opacity (b t : ndarray F) :
  geometry sh b -> geometry sh t ->
  (let? o := hard_light_expr b t in opacity_expr opacity b o)
  = Ok (grid sh (zip_with (hard_light_cell opacity) (cells b) (cells t))).
Proof.
  intros Gb Gt.
  assert (L : length (cells b) = length (cells t))
    by (destruct Gb as [_ ->], Gt as [_ ->]; reflexivity).
  rewrite (hard_light_expr_cells sh) by auto. cbn [rbind].
  rewrite (opacity_expr_cells sh); [|auto|].
  - cbn [grid cells]. rewrite lerp_zip. reflexivity.
  - apply geometry_grid. rewrite length_zip_with, <- L, Nat.min_id. apply Gb.
Qed.

Lemma blend_value_plain_cells sh (B T : rgba (ndarray F)) (m : ndarray F)
    (opacity : pynum) (blendmode : option string) :
  one_geometry sh B -> one_geometry sh T -> geometry sh m ->
  py_eq_zero opacity = false -> truthy_name blendmode = false ->
  blend_value B T (Some m) opacity blendmode = Ok (plain_blend sh opacity m B T).
Proof.
  intros (GB0 & GB1 & GB2 & GB3) (GT0 & GT1 & GT2 & GT3) Gm Ez Eb.
  pose proof (plain_channel sh opacity m _ _ Gm GB0 GT0) as E0.
  pose proof (plain_channel sh opacity m _ _ Gm GB1 GT1) as E1.
  pose proof (plain_channel sh opacity m _ _ Gm GB2 GT2) as E2.
  unfold blend_value. rewrite Ez, Eb. cbn [negb mask_value rbind].
  destruct (paste_expr m (ch0 B) (ch0 T)) as [o0|]; [|discriminate E0].
  destruct (paste_expr m (ch1 B) (ch1 T)) as [o1|]; [|discriminate E1].
  destruct (paste_expr m (ch2 B) (ch2 T)) as [o2|]; [|discriminate E2].
  cbn [rbind] in *. rewrite (arr_map2_geometry _ sh) by auto. cbn [rbind].
  rewrite (alpha_expr_geometry sh) by auto using geometry_zip.
  cbn [rbind ch0 ch1 ch2 ch3 cells]. rewrite E0, E1, E2. cbn [rbind].
  unfold plain_blend. rewrite alpha_cells; [reflexivity| |].
  - destruct GT3 as [_ ->], GB3 as [_ ->]. reflexivity.
  - destruct Gm as [_ ->], GB3 as [_ ->]. reflexivity.
Qed.

Lemma blend_value_hard_light_cells sh (B T : rgba (ndarray F)) (mv : option (ndarray F))
    (opacity : pynum) :
  one_geometry sh B -> one_geometry sh T ->
  py_eq_zero opacity = false ->
  blend_value B T mv opacity (Some "hard light"%string) = Ok (hard_light_blend sh opacity B T).
Proof.
  intros (GB0 & GB1 & GB2 & GB3) (GT0 & GT1 & GT2 & GT3) Ez.
  pose proof (hard_light_channel sh opacity _ _ GB0 GT0) as E0.
  pose proof (hard_light_channel sh opacity _ _ GB1 GT1) as E1.
  pose proof (hard_light_channel sh opacity _ _ GB2 GT2) as E2.
  unfold blend_value. rewrite Ez.
  change (negb (truthy_name (Some "hard light"%string))) with false. cbv iota.
  rewrite bool_decide_eq_true_2 by reflexivity.
  destruct (hard_light_expr (ch0 B) (ch0 T)) as [o0|]; [|discriminate E0].
  destruct (hard_light_expr (ch1 B) (ch1 T)) as [o1|]; [|discriminate E1].
  destruct (hard_light_expr (ch2 B) (ch2 T)) as [o2|]; [|discriminate E2].
  cbn [rbind ch0 ch1 ch2 ch3] in *. rewrite E0, E1, E2. reflexivity.
Qed.

Lemma blend_images_plain_run (h : heap F) (bottom top : raster) (mask : mask_arg)
    (opacity : pynum) (blendmode : option string)
    (B T : rgba (ndarray F)) (m : ndarray F) (sh : nat * nat) :
  holds h (chans bottom) B -> holds h (chans top) T -> mask_holds h mask (Some m) ->
  one_geometry sh B -> one_geometry sh T -> geometry sh m ->
  py_eq_zero opacity = false -> truthy_name blendmode = false ->
  wp (blend_images bottom top mask opacity blendmode) h
     (fun r h' => exists out,
        r = Ok (mk_raster true out) /\ h ⊆ h'
        /\ holds h' out (plain_blend sh opacity m B T)).
Proof.
  intros HB HT Hm GB GT Gm Ez Eb.
  pose proof (blend_images_run h bottom top mask opacity blendmode B T (Some m) HB HT Hm) as R.
  unfold wp, blend_post in *. destruct R as [Hs R].
  rewrite (blend_value_plain_cells sh) in R by auto.
  destruct R as (o & -> & Ho & _). eauto.
Qed.


(** X7. A hard light blend of rasters of one geometry with a nonzero
    opacity returns whatever the mask is, and its arrays are cell by cell:
    every colour cell is [(1 - opacity) * b + opacity * v] where [v] is
    [1 - 2 * (1 - b) * (1 - t)] if [t >= .5], [2 * b * t] if [t < .5] and
    [b] if neither comparison holds; the alpha channel is the bottom
    one.  The bottom and the top raster are as they were. *)
Theorem blend_images_hard_light_cells (h : heap F) (bottom top : raster) (mask : mask_arg)
    (opacity : pynum) (B T : rgba (ndarray F)) (mv : option (ndarray F)) (sh : nat * nat) :
  holds h (chans bottom) B -> holds h (chans top) T -> mask_holds h mask mv ->
  one_geometry sh B -> one_geometry sh T ->
  py_eq_zero opacity = false ->
  wp (blend_images bottom top mask opacity (Some "hard light"%string)) h
     (fun r h' => exists out,
        r = Ok (mk_raster true out)
        /\ holds h' out (hard_light_blend sh opacity B T)
        /\ holds h' (chans bottom) B /\ holds h' (chans top) T).
Proof.
  intros HB HT Hm GB GT Ez.
  pose proof (blend_images_run h bottom top mask opacity (Some "hard light"%string)
                B T mv HB HT Hm) as R.
  unfold wp, blend_post in *. destruct R as [Hs R].
  rewrite (blend_value_hard_light_cells sh) in R by auto.
  destruct R as (o & -> & Ho & _). exists o.
  split; [reflexivity|]. split; [exact Ho|].
  destruct HB as (B0 & B1 & B2 & B3), HT as (T0 & T1 & T2 & T3).
  repeat split; eapply lookup_weaken; eassumption.
Qed.

(** X8. A plain blend with a nonzero opacity whose mask is a sequence
    that is not a list (the tuple a curves adjustment returns) raises
    TypeError at [1 - mask_chan], whatever the rasters are; the store is
    only extended. *)
Theorem blend_images_tuple_mask (h : heap F) (bottom top r : raster)
    (opacity : pynum) (blendmode : option string) (B T : rgba (ndarray F)) :
  holds h (chans bottom) B -> holds h (chans top) T ->
  is_list r = false ->
  py_eq_zero opacity = false -> truthy_name blendmode = false ->
  wp (blend_images bottom top (MaskSeq r) opacity blendmode) h
     (fun res h' => res = Err TypeError /\ h ⊆ h').
Proof.
  intros HB HT Er Ez Eb.
  assert (Hm : mask_holds h (MaskSeq r) None) by (cbn; rewrite Er; reflexivity).
  pose proof (blend_images_run h bottom top (MaskSeq r) opacity blendmode B T None HB HT Hm)
    as R.
  unfold wp, blend_post in *. destruct R as [Hs R].
  unfold blend_value in R. rewrite Ez, Eb in R. cbn in R. auto.
Qed.
End BlendCellFacts.


Lemma blend_images_hard_light_cells_witness :
  wp (blend_images Fixture.first Fixture.second (MaskSeq Fixture.second)
        (PyFloat (Py64.of_Z 1)) (Some "hard light"%string))
     (Fixture.store (1 # 4)%Q (1 # 2)%Q)
     (fun r h' => exists out,
        r = Ok (mk_raster true out)
        /\ holds h' out
             (hard_light_blend (1, 1)%nat (PyFloat (Py64.of_Z 1))
                (rgba_map pixel (mk_rgba (1 # 4) (1 # 4) (1 # 4) (1 # 4))%Q)
                (rgba_map pixel (mk_rgba (1 # 2) (1 # 2) (1 # 2) (1 # 2))%Q))
        /\ holds h' (chans Fixture.first)
             (rgba_map pixel (mk_rgba (1 # 4) (1 # 4) (1 # 4) (1 # 4))%Q)
        /\ holds h' (chans Fixture.second)
             (rgba_map pixel (mk_rgba (1 # 2) (1 # 2) (1 # 2) (1 # 2))%Q)).
Proof.
  apply (blend_images_hard_light_cells _ _ _ _ _
           (rgba_map pixel (mk_rgba (1 # 4) (1 # 4) (1 # 4) (1 # 4))%Q)
           (rgba_map pixel (mk_rgba (1 # 2) (1 # 2) (1 # 2) (1 # 2))%Q)
           (Some (pixel (1 # 2)%Q)) (1, 1)%nat);
    try (repeat split; reflexivity).
  eexists; split; reflexivity.
Defined.

Lemma blend_images_tuple_mask_witness :
  wp (blend_images Fixture.first Fixture.second
        (MaskSeq (mk_raster false (chans Fixture.second))) (PyInt 1) None)
     (Fixture.store (F32.of_Z 0) (F32.of_Z 1))
     (fun res h' => res = Err TypeError /\ Fixture.store (F32.of_Z 0) (F32.of_Z 1) ⊆ h').
Proof.
  apply (blend_images_tuple_mask _ _ _ _ _ _
           (rgba_map pixel (mk_rgba (F32.of_Z 0) (F32.of_Z 0) (F32.of_Z 0) (F32.of_Z 0)))
           (rgba_map pixel (mk_rgba (F32.of_Z 1) (F32.of_Z 1) (F32.of_Z 1) (F32.of_Z 1))));
    try (repeat split; reflexivity).
Defined.


(** ** Shapes that do not broadcast *)

Section Shapes.
Context {F : Type} `{Dtype F}.

Lemma arr_map2_mismatch {X Y W} (f : X -> Y -> W) (a : ndarray X) (b : ndarray Y) :
  bcast_axis (nrows a) (nrows b) = None \/ bcast_axis (ncols a) (ncols b) = None ->
  arr_map2 f a b = Err ValueError.
Proof.
  intros [E | E]; unfold arr_map2; rewrite E; [reflexivity|].
  destruct (bcast_axis (nrows a) (nrows b)); reflexivity.
Qed.

(** X9. A plain blend with a nonzero opacity whose mask does not
    broadcast against the bottom raster (on some axis the two lengths
    differ and neither is 1) raises the ValueError of numpy at
    [(1 - mask_chan) * bottom_rgba[0]]; the store is only extended. *)
Theorem blend_images_shape_mismatch (h : heap F) (bottom top : raster) (mask : mask_arg)
    (opacity : pynum) (blendmode : option string)
    (B T : rgba (ndarray F)) (m : ndarray F) :
  holds h (chans bottom) B -> holds h (chans top) T -> mask_holds h mask (Some m) ->
  bcast_axis (nrows m) (nrows (ch0 B)) = None \/ bcast_axis (ncols m) (ncols (ch0 B)) = None ->
  py_eq_zero opacity = false -> truthy_name blendmode = false ->
  wp (blend_images bottom top mask opacity blendmode) h
     (fun r h' => r = Err ValueError /\ h ⊆ h').
Proof.
  intros HB HT Hm Hx Ez Eb.
  pose proof (blend_images_run h bottom top mask opacity blendmode B T (Some m) HB HT Hm) as R.
  unfold wp, blend_post in *. destruct R as [Hs R].
  unfold blend_value, paste_expr in R. rewrite Ez, Eb in R. cbn [negb mask_value rbind] in R.
  rewrite (arr_map2_mismatch dt_mul (arr_map (dt_sub one) m) (ch0 B)) in R by exact Hx.
  cbn in R. auto.
Qed.
End Shapes.

Lemma blend_images_shape_mismatch_witness :
  let h : heap float32 :=
    <[1%positive := mk_ndarray 1 2 [F32.of_Z 0; F32.of_Z 0]]>
      (<[2%positive := mk_ndarray 1 3 [F32.of_Z 1; F32.of_Z 1; F32.of_Z 1]]> ∅) in
  wp (blend_images Fixture.first Fixture.second (MaskSeq Fixture.second) (PyInt 1) None) h
     (fun r h' => r = Err ValueError /\ h ⊆ h').
Proof.
  intros h.
  assert (HB : holds h (chans Fixture.first)
                 (rgba_map (fun _ : unit => mk_ndarray 1 2 [F32.of_Z 0; F32.of_Z 0])
                    (mk_rgba tt tt tt tt)))
    by (repeat split; reflexivity).
  assert (HT : holds h (chans Fixture.second)
                 (rgba_map (fun _ : unit => mk_ndarray 1 3 [F32.of_Z 1; F32.of_Z 1; F32.of_Z 1])
                    (mk_rgba tt tt tt tt)))
    by (repeat split; reflexivity).
  assert (Hm : mask_holds h (MaskSeq Fixture.second)
                 (Some (mk_ndarray 1 3 [F32.of_Z 1; F32.of_Z 1; F32.of_Z 1])))
    by (eexists; split; reflexivity).
  exact (blend_images_shape_mismatch h Fixture.first Fixture.second (MaskSeq Fixture.second)
           (PyInt 1) None _ _ _ HB HT Hm (or_intror eq_refl) eq_refl eq_refl).
Defined.


(** ** Layers, pixel by pixel *)

(** [_img2rgba] on a well-formed image: a new list of four new arrays. *)
Lemma img2rgba_run (im : image) (h : heap float32) :
  wf_image im ->
  wp (_img2rgba im) h
     (fun r h' => exists out,
        r = Ok (mk_raster true out) /\ h ⊆ h' /\ holds h' out (image_arrays im)).
Proof.
  intros W. assert (Hs : h ⊆ h) by reflexivity.
  unfold _img2rgba, split. cbn [ch0 ch1 ch2 ch3].
  rewrite !(img2arr_band im _ W).
  wp_go.
  eexists. split; [reflexivity|]. split; [exact Hs|repeat split; assumption].
Qed.

(** [_rgba2img] on a list of four arrays. *)
Lemma rgba2img_run (out : rgba loc) (V : rgba (ndarray float32)) (h : heap float32) :
  holds h out V ->
  wp (_rgba2img (mk_raster true out)) h (fun r h' => r = arrays_image V /\ h' = h).
Proof.
  intros (H0 & H1 & H2 & H3). unfold _rgba2img, arrays_image. cbn [negb is_list].
  wp_go; cbn [rbind]; auto.
Qed.

Lemma image_arrays_geometry (im : image) :
  wf_image im -> one_geometry (snd (im_size im), fst (im_size im)) (image_arrays im).
Proof.
  intros W. unfold wf_image in W.
  repeat split; cbn; rewrite !length_map, W; apply Nat.mul_comm.
Qed.

Lemma color_band_grid (sh : nat * nat) (band : Z) :
  color_band sh band = grid sh (replicate (fst sh * snd sh) (color_cell band)).
Proof.
  unfold color_band, full, arr_map, grid. cbn [nrows ncols cells].
  rewrite fmap_replicate. reflexivity.
Qed.

Lemma map3_replicate {A B C D} (f : A -> B -> C -> D) (x : A) (z : C) (ys : list B) n :
  n = length ys ->
  map3 f (replicate n x) ys (replicate n z) = map (fun y => f x y z) ys.
Proof. intros ->. induction ys as [|y ys IH]; [reflexivity|]. cbn. f_equal. exact IH. Qed.

Lemma map3_replicate_r {A B C D} (f : A -> B -> C -> D) (y : B) (z : C) (xs : list A) n :
  n = length xs ->
  map3 f xs (replicate n y) (replicate n z) = map (fun x => f x y z) xs.
Proof. intros ->. induction xs as [|x xs IH]; [reflexivity|]. cbn. f_equal. exact IH. Qed.

Lemma zip4_maps {X Y} (f0 f1 f2 f3 : X -> Y) (l : list X) :
  zip4 (map f0 l) (map f1 l) (map f2 l) (map f3 l)
  = map (fun p => mk_rgba (f0 p) (f1 p) (f2 p) (f3 p)) l.
Proof. induction l as [|x l IH]; [reflexivity|]. cbn. f_equal. exact IH. Qed.

Lemma arr2img_grid (size : nat * nat) (xs : list float32) :
  length xs = (fst size * snd size)%nat ->
  _arr2img (arr_map quantize (grid (snd size, fst size) xs))
  = Ok (mk_image_L size (map quantize xs)).
Proof.
  intros L. unfold _arr2img, arr_map, grid. cbn [cells nrows ncols fst snd].
  rewrite length_map, L, Nat.eqb_refl. destruct size. reflexivity.
Qed.

Lemma cells_grid {X} (sh : nat * nat) (xs : list X) : cells (grid sh xs) = xs.
Proof. reflexivity. Qed.

Lemma make_color_truthy (color : pyvalue) (c : rgba Z) :
  make_color color = Ok c -> truthy color = true.
Proof.
  destruct color; try discriminate. cbn.
  destruct s; [discriminate|reflexivity].
Qed.

Lemma layer_render_color_run (self : layer) (config : Configuration) (input_img : image)
    (coord : Coordinate) (h : heap float32) (c : rgba Z) :
  wf_image input_img -> color_only self ->
  make_color (colorname self) = Ok c ->
  py_eq_zero (opacity self) = false -> truthy_name (blendmode self) = false ->
  wp (Layer.render self config input_img coord) h
     (fun r h' =>
        r = Ok (mk_image (im_size input_img) (map (paint (opacity self) c) (im_pixels input_img)))
        /\ h ⊆ h').
Proof.
  intros W [El Em] Ec Ez Eb.
  pose proof (make_color_truthy _ _ Ec) as Et.
  unfold Layer.render, Layer.resolve. rewrite El, Em, Et, Ec.
  wp_go.
  eapply wp_mono; [apply (img2rgba_run _ _ W)|].
  intros r h1 (out & -> & Hs & (H0 & H1 & H2 & H3)). cbv beta iota.
  wp_go.
  set (sh := (snd (im_size input_img), fst (im_size input_img))).
  assert (Esh : shape (ch0 (image_arrays input_img)) = sh) by reflexivity.
  rewrite Esh, color_band_grid in H, H4, H5, H6.
  pose proof (image_arrays_geometry _ W) as GB. fold sh in GB.
  assert (Ln : (fst sh * snd sh)%nat = length (im_pixels input_img))
    by (unfold wf_image in W; rewrite W; apply Nat.mul_comm).
  assert (GT : forall band, geometry sh (grid sh (replicate (fst sh * snd sh) (color_cell band))))
    by (intros band; apply geometry_grid, length_replicate).
  unfold Layer.combine. cbn [Layer.output_of Layer.layer_of Layer.color_of Layer.mask_of].
  eapply wp_mono.
  { eapply (blend_images_plain_run h4 _ _ _ _ _ (image_arrays input_img)
              (mk_rgba _ _ _ _) _ sh);
      [repeat split; eassumption | repeat split; eassumption
      | cbn; eexists; split; [eassumption|reflexivity]
      | exact GB | repeat split; apply GT | apply GT | exact Ez | exact Eb]. }
  intros r h5 (o & -> & Hs' & Ho). cbv beta iota.
  eapply wp_mono; [apply (rgba2img_run _ _ _ Ho)|].
  intros r h6 [-> ->]. split; [|etrans; eassumption].
  unfold arrays_image, plain_blend. cbn [ch0 ch1 ch2 ch3 image_arrays arr_map cells].
  rewrite !cells_grid.
  rewrite !map3_replicate, map3_replicate_r by (rewrite !length_map; exact Ln).
  rewrite <- !list_fmap_compose.
  rewrite !(arr2img_grid (im_size input_img))
    by (rewrite length_map; unfold wf_image in W; exact W).
  cbn [rbind]. unfold merge. cbn [ch0 ch1 ch2 ch3 band_size band_pixels].
  rewrite bool_decide_eq_true_2 by (repeat split; reflexivity).
  rewrite <- !list_fmap_compose, zip4_maps. reflexivity.
Qed.


(** ** An opaque colour *)

Lemma all_bytes_complete (z : Z) : is_byte z -> In z all_bytes.
Proof.
  intros [L U]. unfold all_bytes. apply in_map_iff. exists (Z.to_nat z).
  split; [lia|]. apply in_seq. lia.
Qed.

(** Under a mask of ones and with opacity one, the bottom cell is
    multiplied by zero, and the new alpha is one. *)
Lemma opaque_bottom (b : ubyte) :
  dt_mul (dt_sub one (color_cell 255)) (unit_float b) = S754_zero false
  /\ dt_mul (dt_of_num (py_one_minus (PyInt 1))) (unit_float b) = S754_zero false
  /\ dt_mul (dt_of_num (py_one_minus (PyFloat (Py64.of_Z 1)))) (unit_float b) = S754_zero false
  /\ quantize (alpha_cell (unit_float b) (color_cell 255) (color_cell 255)) = Byte.xff.
Proof. destruct b; vm_compute; repeat split. Qed.

(** Every byte of a colour comes back from its float cell. *)
Lemma opaque_top (opacity : pynum) (z : Z) :
  full_opacity opacity -> is_byte z -> quantize (opaque_cell opacity z) = ubyte_of_Z z.
Proof.
  intros Hop Hz.
  assert (C : opaque_check opacity = true) by (destruct Hop as [-> | ->]; vm_compute; reflexivity).
  unfold opaque_check in C. rewrite forallb_forall in C.
  specialize (C z (all_bytes_complete z Hz)). apply Byte.byte_dec_bl in C. exact C.
Qed.

Lemma paint_opaque (opacity : pynum) (c : rgba Z) (p : rgba ubyte) :
  full_opacity opacity -> Forall is_byte (rgba_list c) -> ch3 c = 255 ->
  paint opacity c p = rgba_map ubyte_of_Z c.
Proof.
  intros Hop Hc Ha. destruct c as [r g b a]. cbn in Ha. subst a.
  apply Forall_cons in Hc as [Hr Hc]. apply Forall_cons in Hc as [Hg Hc].
  apply Forall_cons in Hc as [Hb _].
  unfold paint, plain_cell, lerp_cell, paste_cell. cbn [ch0 ch1 ch2 ch3 rgba_map].
  destruct (opaque_bottom (ch0 p)) as (-> & Z0 & Z0' & _).
  destruct (opaque_bottom (ch1 p)) as (-> & Z1 & Z1' & _).
  destruct (opaque_bottom (ch2 p)) as (-> & Z2 & Z2' & _).
  destruct (opaque_bottom (ch3 p)) as (_ & _ & _ & ->).
  pose proof (opaque_top opacity r Hop Hr) as Er.
  pose proof (opaque_top opacity g Hop Hg) as Eg.
  pose proof (opaque_top opacity b Hop Hb) as Eb.
  unfold opaque_cell in *. cbv zeta in *.
  destruct Hop as [-> | ->].
  - rewrite Z0, Z1, Z2, Er, Eg, Eb. reflexivity.
  - rewrite Z0', Z1', Z2', Er, Eg, Eb. reflexivity.
Qed.


(** ** A layer of one colour *)

Lemma map_const {X Y} (y : Y) (f : X -> Y) (l : list X) :
  (forall x, f x = y) -> map f l = replicate (length l) y.
Proof. intros Hf. induction l as [|x l IH]; [reflexivity|]. cbn. rewrite Hf, IH. reflexivity. Qed.

(** X12. A layer that is a colour only, with a nonzero opacity and
    no blend mode, returns on every well-formed image an image of the same
    size, each pixel of which depends on the pixel below, the colour and the
    opacity alone; when the colour is opaque and the opacity is one, the
    result is that colour in every pixel. *)
Theorem layer_render_color (self : layer) (config : Configuration) (input_img : image)
    (coord : Coordinate) (h : heap float32) (c : rgba Z) :
  wf_image input_img -> color_only self ->
  make_color (colorname self) = Ok c ->
  py_eq_zero (opacity self) = false -> truthy_name (blendmode self) = false ->
  wp (Layer.render self config input_img coord) h
     (fun r h' =>
        r = Ok (mk_image (im_size input_img) (map (paint (opacity self) c) (im_pixels input_img)))
        /\ (full_opacity (opacity self) -> opaque_color c ->
            r = Ok (solid input_img (rgba_map ubyte_of_Z c)))).
Proof.
  intros W Hs Ec Ez Eb.
  eapply wp_mono; [apply (layer_render_color_run self config input_img coord h c); auto|].
  intros r h' [-> _]. split; [reflexivity|].
  intros Hop [Hc Ha]. unfold solid. do 2 f_equal.
  apply map_const. intros p. apply paint_opaque; auto.
Qed.

Lemma BLEND_opaque (out inp : ubyte) : BLEND Byte.xff out inp = inp.
Proof.
  unfold BLEND, MULDIV255. change (Z_of_ubyte Byte.xff) with 255.
  rewrite Z.sub_diag, Z.mul_0_r. destruct inp; reflexivity.
Qed.

Lemma blend_pixel_opaque (out inp : rgba ubyte) : blend_pixel Byte.xff out inp = inp.
Proof. unfold blend_pixel. rewrite !BLEND_opaque. destruct inp; reflexivity. Qed.

(** Pasting an image of one opaque colour leaves that colour alone. *)
Lemma paste_opaque (dst : image) (p : rgba ubyte) :
  wf_image dst -> ch3 p = Byte.xff -> paste dst (solid dst p) (solid dst p) = solid dst p.
Proof.
  intros W Hp. unfold wf_image in W. unfold paste, solid. cbn [im_size im_pixels]. f_equal.
  apply list_eq. intros i. rewrite list_lookup_imap.
  destruct (im_pixels dst !! i) as [out|] eqn:E; cbn [fmap option_fmap option_map].
  - apply lookup_lt_Some in E.
    set (w := fst (im_size dst)) in *. set (n := snd (im_size dst)) in *.
    assert (Hw : w <> 0%nat) by (intros Hw0; rewrite Hw0 in W; cbn in W; lia).
    assert (Hx : (i mod w < w)%nat) by (apply Nat.mod_upper_bound; exact Hw).
    assert (Hy : (i / w < n)%nat) by (apply Nat.Div0.div_lt_upper_bound; lia).
    assert (Ei : (i / w * w + i mod w = i)%nat)
      by (rewrite (Nat.div_mod_eq i w) at 3; lia).
    apply Nat.ltb_lt in Hx, Hy. rewrite Hx, Hy. cbn [andb]. rewrite Ei.
    rewrite !lookup_replicate_2 by exact E.
    rewrite Hp. f_equal. apply blend_pixel_opaque.
  - apply lookup_ge_None in E. symmetry. apply lookup_replicate_None. exact E.
Qed.

Lemma full_opacity_nonzero (opacity : pynum) : full_opacity opacity -> py_eq_zero opacity = false.
Proof. intros [-> | ->]; reflexivity. Qed.

Lemma PIL_new_wf (size : nat * nat) (p : rgba ubyte) : wf_image (PIL_new size p).
Proof. unfold wf_image, PIL_new. cbn. apply length_replicate. Qed.

Lemma solid_PIL_new (size : nat * nat) (p q : rgba ubyte) :
  solid (PIL_new size p) q = PIL_new size q.
Proof. unfold solid, PIL_new. cbn. rewrite length_replicate. reflexivity. Qed.

Lemma solid_solid (im : image) (p q : rgba ubyte) : solid (solid im p) q = solid im q.
Proof. unfold solid. cbn. rewrite length_replicate. reflexivity. Qed.

Lemma stack_render_opaque_run (self : layer) (config : Configuration) (input_img : image)
    (coord : Coordinate) (h : heap float32) (c : rgba Z) :
  wf_image input_img -> color_only self ->
  make_color (colorname self) = Ok c -> opaque_color c ->
  full_opacity (opacity self) -> truthy_name (blendmode self) = false ->
  wp (Stack.render [Layer self] config input_img coord) h
     (fun r h' => r = Ok (solid input_img (rgba_map ubyte_of_Z c)) /\ h ⊆ h').
Proof.
  intros W Hs Ec Ho Hop Eb.
  unfold Stack.render. cbn [render].
  do 2 apply wp_bind.
  eapply wp_mono;
    [apply (layer_render_color_run self config _ coord h c);
     auto using PIL_new_wf, full_opacity_nonzero|].
  intros r h' [-> Hh]. apply wp_ret. cbv beta iota. apply wp_ret. split; [|exact Hh].
  f_equal. destruct Ho as [Hc Ha].
  rewrite (map_const (rgba_map ubyte_of_Z c)) by (intros p; apply paint_opaque; auto).
  cbn [PIL_new im_size im_pixels]. rewrite length_replicate.
  unfold wf_image in W. rewrite <- W.
  apply (paste_opaque input_img (rgba_map ubyte_of_Z c) W).
  cbn. rewrite Ha. reflexivity.
Qed.

(** X17. A stack of one layer that is an opaque colour only, with
    opacity one and no blend mode, turns every well-formed image into that
    colour, and [renderTile] on it returns a tile of the requested size
    filled with that colour. *)
Theorem stack_render_opaque_color (self : layer) (config : Configuration) (coord : Coordinate)
    (h : heap float32) (c : rgba Z) :
  color_only self -> make_color (colorname self) = Ok c -> opaque_color c ->
  full_opacity (opacity self) -> truthy_name (blendmode self) = false ->
  (forall input_img, wf_image input_img ->
     wp (Stack.render [Layer self] config input_img coord) h
        (fun r h' => r = Ok (solid input_img (rgba_map ubyte_of_Z c)) /\ h ⊆ h'))
  /\ forall width height,
       wp (renderTile (Stack [Layer self]) config width height coord) h
          (fun r h' => r = Ok (PIL_new (width, height) (rgba_map ubyte_of_Z c)) /\ h ⊆ h').
Proof.
  intros Hs Ec Ho Hop Eb. split.
  - intros input_img W. apply (stack_render_opaque_run self config input_img coord h c); auto.
  - intros width height. unfold renderTile.
    change (render (Stack [Layer self])) with (Stack.render [Layer self]).
    rewrite <- (solid_PIL_new (width, height) transparent (rgba_map ubyte_of_Z c)).
    apply (stack_render_opaque_run self config _ coord h c); auto using PIL_new_wf.
Qed.



(** ** The curves adjustment *)

Lemma sympy_solve_regular (black grey white : Z) :
  ~ degenerate black grey white ->
  exists a b c,
    sympy_solve (Q_of_pyfloat (normalized black)) (Q_of_pyfloat (normalized grey))
      (Q_of_pyfloat (normalized white)) = Some (a, b, c).
Proof.
  intros N. unfold degenerate in N. cbv zeta in N. unfold sympy_solve.
  destruct (Qeq_bool _ _) eqn:E01; [apply Qeq_bool_eq in E01; tauto|].
  destruct (Qeq_bool _ _) eqn:E02 in |- *; [apply Qeq_bool_eq in E02; tauto|].
  destruct (Qeq_bool _ _) eqn:E12 in |- *; [apply Qeq_bool_eq in E12; tauto|].
  cbn [orb]. eauto.
Qed.

Lemma zip_with_replicate_l {X Y Z} (f : X -> Y -> Z) (k : X) (ys : list Y) n :
  n = length ys -> zip_with f (replicate n k) ys = map (f k) ys.
Proof. intros ->. induction ys as [|y ys IH]; [reflexivity|]. cbn. f_equal. exact IH. Qed.

Lemma zip_with_replicate_r {X Y Z} (f : X -> Y -> Z) (k : Y) (xs : list X) n :
  n = length xs -> zip_with f xs (replicate n k) = map (fun x => f x k) xs.
Proof. intros ->. induction xs as [|x xs IH]; [reflexivity|]. cbn. f_equal. exact IH. Qed.

Lemma curve_expr_cells (sh : nat * nat) (a b c : Q) (x : ndarray float32) :
  geometry sh x ->
  curve_expr (coefficient sh a) (coefficient sh b) (coefficient sh c) x
  = Ok (grid sh (map (curve_cell a b c) (cells x))).
Proof.
  intros Gx. pose proof Gx as [_ Lx].
  assert (Gk : forall co, geometry sh (coefficient sh co))
    by (intros co; split; [destruct sh; reflexivity | apply length_replicate]).
  unfold curve_expr.
  rewrite (arr_map2_geometry _ sh) by auto using geometry_map. cbn [rbind].
  rewrite (arr_map2_geometry _ sh) by auto. cbn [rbind].
  rewrite (arr_map2_geometry _ sh)
    by (apply (geometry_zip _ sh); auto using geometry_map). cbn [rbind].
  rewrite (arr_map2_geometry _ sh); [|apply (geometry_zip _ sh (mk_ndarray _ _ _) (mk_ndarray _ _ _))|auto].
  - unfold coefficient, full, grid. cbn [cells arr_map]. f_equal. f_equal.
    rewrite !zip_with_replicate_l by (rewrite ?length_map; auto).
    rewrite zip_with_replicate_r.
    + rewrite <- !list_fmap_compose.
      clear. induction (cells x) as [|v l IH]; [reflexivity|]. cbn. f_equal. exact IH.
    + rewrite length_zip_with, !length_map. lia.
  - apply (geometry_zip _ sh); auto using geometry_map.
  - apply (geometry_zip _ sh); auto.
Qed.

Lemma curves_adjustment_run (given : raster) (black grey white : Z) (h : heap float32)
    (V : rgba (ndarray float32)) (sh : nat * nat) :
  holds h (chans given) V -> one_geometry sh V ->
  ~ degenerate black grey white ->
  wp (apply_curves_adjustment given black grey white) h
     (fun r h' => exists a b c out,
        sympy_solve (Q_of_pyfloat (normalized black)) (Q_of_pyfloat (normalized grey))
          (Q_of_pyfloat (normalized white)) = Some (a, b, c)
        /\ r = Ok (mk_raster false out) /\ ch3 out = ch3 (chans given)
        /\ h ⊆ h' /\ holds h' out (curves_arrays sh a b c V)).
Proof.
  intros (H0 & H1 & H2 & H3) (G0 & G1 & G2 & G3) N.
  destruct (sympy_solve_regular _ _ _ N) as (a & b & c & E).
  assert (Hs : h ⊆ h) by reflexivity.
  unfold apply_curves_adjustment. rewrite E.
  assert (Esh : shape (ch0 V) = sh) by apply G0.
  wp_run; rewrite ?Esh in *;
    repeat match goal with
      | K : curve_expr _ _ _ _ = _ |- _ =>
          rewrite (curve_expr_cells sh) in K by assumption;
          first [discriminate K | injection K as <-]
      end.
  exists a, b, c. eexists. split; [reflexivity|]. split; [reflexivity|].
  split; [reflexivity|]. split; [exact Hs|].
  repeat split; assumption.
Qed.

(** X16. A layer with a source, a curves adjustment and no blend
    mode cannot be rendered: the adjusted source is a tuple, which the
    blend then takes for its mask, and [1 - mask_chan] raises TypeError.
    This holds for every well-formed input image and source tile, every
    nonzero opacity and every three control points that are not
    degenerate. *)
Theorem layer_render_curves_plain (self : layer) (config : Configuration) (input_img : image)
    (coord : Coordinate) (h : heap float32) (name : string) (source : tile_layer)
    (tile : image) (black grey white : Z) :
  wf_image input_img ->
  layername self = Some name -> name <> ""%string ->
  config !! name = Some source -> getTile_RGBA source coord = Ok tile -> wf_image tile ->
  truthy (colorname self) = false -> truthy_name (maskname self) = false ->
  adjustments self = Some [("curves"%string, [black; grey; white])] ->
  ~ degenerate black grey white ->
  py_eq_zero (opacity self) = false -> truthy_name (blendmode self) = false ->
  wp (Layer.render self config input_img coord) h
     (fun r h' => r = Err TypeError /\ h ⊆ h').
Proof.
  intros W El Hn Ec Eg Wt Et Em Ea N Ez Eb.
  assert (Tl : truthy_name (layername self) = true).
  { rewrite El. cbn. apply negb_true_iff, String.eqb_neq. exact Hn. }
  unfold Layer.render, Layer.resolve. rewrite Tl, Em, Et, El, Ea.
  change (default ""%string (Some name)) with name.
  unfold layers_getitem. rewrite Ec. cbv iota.
  wp_go.
  eapply wp_mono; [apply (img2rgba_run _ _ W)|].
  intros r h1 (out & -> & Hs & HB). cbv beta iota.
  wp_go; [injection Eg as -> | discriminate Eg].
  eapply wp_mono; [apply (img2rgba_run _ _ Wt)|].
  intros r h2 (top & -> & Hs2 & HT). cbv beta iota.
  wp_go. unfold apply_adjustments, apply_each.
  change (String.eqb "curves" "curves") with true. cbv iota.
  wp_go.
  eapply wp_mono;
    [apply (curves_adjustment_run (mk_raster true top) black grey white h2 _ _ HT
              (image_arrays_geometry _ Wt) N)|].
  intros r h3 (a & b & c & adj & _ & -> & Ealpha & Hs3 & HA). cbv beta iota.
  wp_go.
  unfold Layer.combine. cbn [Layer.output_of Layer.layer_of Layer.color_of Layer.mask_of].
  assert (HB3 : holds h3 out (image_arrays input_img)).
  { destruct HB as (B0 & B1 & B2 & B3).
    repeat split; eapply lookup_weaken; try eassumption; etrans; eassumption. }
  pose proof (blend_images_run h3 (mk_raster true out) (mk_raster false adj)
                (MaskSeq (mk_raster false adj)) (opacity self) (blendmode self)
                _ _ None HB3 HA eq_refl) as R.
  eapply wp_mono; [exact R|].
  intros r h4 [Hs4 R4]. unfold blend_value in R4. rewrite Ez, Eb in R4. cbn in R4.
  subst r. split; [reflexivity|]. etrans; [eassumption|]. etrans; [eassumption|].
  etrans; eassumption.
Qed.



(** ** Layers that change nothing, layers that fail *)

Lemma arrays_image_arrays (im : image) : wf_image im -> arrays_image (image_arrays im) = Ok im.
Proof.
  intros W. unfold arrays_image, image_arrays. cbn [ch0 ch1 ch2 ch3].
  rewrite !(arr2img_band im _ W). cbn [rbind].
  unfold merge. cbn [ch0 ch1 ch2 ch3 band_size band_pixels].
  rewrite bool_decide_eq_true_2 by (repeat split; reflexivity).
  rewrite zip4_channels. destruct im; reflexivity.
Qed.

(** X14. With opacity 0 a layer that is a colour only returns the
    image it was given, byte for byte, whatever its blend mode is, known or
    not. *)
Theorem layer_render_opacity_zero (self : layer) (config : Configuration) (input_img : image)
    (coord : Coordinate) (h : heap float32) (c : rgba Z) :
  wf_image input_img -> color_only self ->
  make_color (colorname self) = Ok c ->
  py_eq_zero (opacity self) = true ->
  wp (Layer.render self config input_img coord) h
     (fun r h' => r = Ok input_img /\ h ⊆ h').
Proof.
  intros W [El Em] Ec Ez.
  pose proof (make_color_truthy _ _ Ec) as Et.
  unfold Layer.render, Layer.resolve. rewrite El, Em, Et, Ec.
  wp_go.
  eapply wp_mono; [apply (img2rgba_run _ _ W)|].
  intros r h1 (out & -> & Hs & HB). cbv beta iota.
  pose proof HB as (H0 & H1 & H2 & H3).
  wp_go.
  unfold Layer.combine. cbn [Layer.output_of Layer.layer_of Layer.color_of Layer.mask_of].
  eapply wp_mono.
  { eapply (blend_images_run _ (mk_raster true out) (mk_raster true (mk_rgba _ _ _ _))
              (MaskSeq (mk_raster true (mk_rgba _ _ _ _))) (opacity self) (blendmode self)
              (image_arrays input_img) (mk_rgba _ _ _ _) (Some _));
      [repeat split; eassumption | repeat split; eassumption
      | cbn; eexists; split; [eassumption|reflexivity]]. }
  intros r h5 [Hs5 R]. unfold blend_value in R. rewrite Ez in R.
  destruct R as (o & -> & Ho & _). cbv beta iota.
  eapply wp_mono; [apply (rgba2img_run _ _ _ Ho)|].
  intros r h6 [-> ->]. split; [apply arrays_image_arrays; exact W|etrans; eassumption].
Qed.

(** X15. A layer whose source names no configured layer fails
    with the KeyError of [config.layers[...]], whatever else it holds: the
    lookup comes before the colour is parsed and before the combination of
    src, color and mask is looked at. *)
Theorem layer_render_missing_source (self : layer) (config : Configuration)
    (input_img : image) (coord : Coordinate) (h : heap float32) (name : string) :
  wf_image input_img ->
  layername self = Some name -> name <> ""%string -> config !! name = None ->
  wp (Layer.render self config input_img coord) h
     (fun r h' => r = Err (KeyError name) /\ h ⊆ h').
Proof.
  intros W El Hn Ec.
  assert (Tl : truthy_name (layername self) = true).
  { rewrite El. cbn. apply negb_true_iff, String.eqb_neq. exact Hn. }
  unfold Layer.render, Layer.resolve. rewrite Tl, El.
  change (default ""%string (Some name)) with name.
  unfold layers_getitem. rewrite Ec.
  wp_go.
  eapply wp_mono; [apply (img2rgba_run _ _ W)|].
  intros r h1 (out & -> & Hs & HB). cbv beta iota.
  wp_go. auto.
Qed.

(** X18. A stack returns an image of the size of the image it was
    given, with as many pixels, whatever its layers are and whatever sizes
    their tiles have; so [renderTile] on a stack returns a tile of the
    requested size whenever it returns. *)
Theorem stack_render_size (layers : list node) (config : Configuration) (input_img : image)
    (coord : Coordinate) (h h' : heap float32) (img : image) :
  Stack.render layers config input_img coord h = (Ok img, h') ->
  im_size img = im_size input_img
  /\ length (im_pixels img) = length (im_pixels input_img)
  /\ (wf_image input_img -> wf_image img).
Proof.
  unfold Stack.render. cbn [render]. intros R.
  apply bind_Ok_inv in R as (s & h1 & _ & R). apply ret_Ok_inv in R. subst img.
  unfold paste, wf_image. cbn [im_size im_pixels]. rewrite length_imap. auto.
Qed.


(** ** A layer of one source *)

Lemma map3_zip_l {A B C D X Y} (f : A -> B -> C -> D) (g1 : Y -> A) (g2 : X -> B) (g3 : Y -> C)
    (ps : list X) (ts : list Y) :
  map3 f (map g1 ts) (map g2 ps) (map g3 ts)
  = zip_with (fun p t => f (g1 t) (g2 p) (g3 t)) ps ts.
Proof.
  revert ts. induction ps as [|p ps IH]; intros [|t ts]; try reflexivity.
  cbn. f_equal. apply IH.
Qed.

Lemma map3_zip_r {A B C D X Y} (f : A -> B -> C -> D) (g1 : X -> A) (g2 : Y -> B) (g3 : Y -> C)
    (ps : list X) (ts : list Y) :
  map3 f (map g1 ps) (map g2 ts) (map g3 ts)
  = zip_with (fun p t => f (g1 p) (g2 t) (g3 t)) ps ts.
Proof.
  revert ts. induction ps as [|p ps IH]; intros [|t ts]; try reflexivity.
  cbn. f_equal. apply IH.
Qed.

Lemma zip4_zip_with {X Y W} (f0 f1 f2 f3 : X -> Y -> W) (ps : list X) (ts : list Y) :
  zip4 (zip_with f0 ps ts) (zip_with f1 ps ts) (zip_with f2 ps ts) (zip_with f3 ps ts)
  = zip_with (fun p t => mk_rgba (f0 p t) (f1 p t) (f2 p t) (f3 p t)) ps ts.
Proof.
  revert ts. induction ps as [|p ps IH]; intros [|t ts]; try reflexivity.
  cbn. f_equal. apply IH.
Qed.

Lemma map_zip_with {X Y W V} (g : W -> V) (f : X -> Y -> W) (ps : list X) (ts : list Y) :
  map g (zip_with f ps ts) = zip_with (fun p t => g (f p t)) ps ts.
Proof.
  revert ts. induction ps as [|p ps IH]; intros [|t ts]; try reflexivity.
  cbn. f_equal. apply IH.
Qed.

Lemma ubyte_is_byte (b : ubyte) : is_byte (Z_of_ubyte b) /\ ubyte_of_Z (Z_of_ubyte b) = b.
Proof. destruct b; (split; [split; discriminate|reflexivity]). Qed.

(** Under an opaque source pixel and with opacity one, the pixel below is
    multiplied by zero, and the new alpha is one. *)
Lemma cover_bottom (b : ubyte) :
  dt_mul (dt_sub one (unit_float Byte.xff)) (unit_float b) = S754_zero false
  /\ quantize (alpha_cell (unit_float b) (unit_float Byte.xff) (unit_float Byte.xff))
     = Byte.xff.
Proof. destruct b; vm_compute; repeat split. Qed.

Lemma cover_top (opacity : pynum) (s : ubyte) :
  full_opacity opacity ->
  quantize
    (dt_add (S754_zero false : float32)
       (dt_mul (dt_of_num opacity)
          (dt_add (S754_zero false : float32)
             (dt_mul (unit_float Byte.xff) (unit_float s)))))
  = s.
Proof.
  intros Hop.
  assert (C : cover_check opacity = true) by (destruct Hop as [-> | ->]; vm_compute; reflexivity).
  unfold cover_check in C. rewrite forallb_forall in C.
  destruct (ubyte_is_byte s) as [Hs Es].
  specialize (C _ (all_bytes_complete _ Hs)). rewrite Es in C.
  apply Byte.byte_dec_bl in C. exact C.
Qed.

(** An opaque source pixel covers the pixel below. *)
Lemma cover_opaque (opacity : pynum) (p t : rgba ubyte) :
  full_opacity opacity -> ch3 t = Byte.xff -> cover opacity p t = t.
Proof.
  intros Hop Ha. destruct t as [r g b a]. cbn in Ha. subst a.
  unfold cover, plain_cell, lerp_cell, paste_cell. cbn [ch0 ch1 ch2 ch3].
  destruct (opaque_bottom (ch0 p)) as (_ & Z0 & Z0' & _).
  destruct (opaque_bottom (ch1 p)) as (_ & Z1 & Z1' & _).
  destruct (opaque_bottom (ch2 p)) as (_ & Z2 & Z2' & _).
  destruct (cover_bottom (ch0 p)) as (-> & _).
  destruct (cover_bottom (ch1 p)) as (-> & _).
  destruct (cover_bottom (ch2 p)) as (-> & _).
  destruct (cover_bottom (ch3 p)) as (_ & ->).
  pose proof (cover_top opacity r Hop) as Er.
  pose proof (cover_top opacity g Hop) as Eg.
  pose proof (cover_top opacity b Hop) as Eb.
  destruct Hop as [-> | ->].
  - rewrite Z0, Z1, Z2, Er, Eg, Eb. reflexivity.
  - rewrite Z0', Z1', Z2', Er, Eg, Eb. reflexivity.
Qed.

Lemma layer_render_source_run (self : layer) (config : Configuration) (input_img : image)
    (coord : Coordinate) (h : heap float32) (tile : image) :
  wf_image input_img -> source_only self config coord tile ->
  wf_image tile -> im_size tile = im_size input_img ->
  py_eq_zero (opacity self) = false -> truthy_name (blendmode self) = false ->
  wp (Layer.render self config input_img coord) h
     (fun r h' =>
        r = Ok (mk_image (im_size input_img)
                  (zip_with (cover (opacity self)) (im_pixels input_img) (im_pixels tile)))
        /\ h ⊆ h').
Proof.
  intros W (name & source & El & Hn & Ec & Eg & Et & Em & Ea) Wt Esz Ez Eb.
  assert (Tl : truthy_name (layername self) = true).
  { rewrite El. cbn. apply negb_true_iff, String.eqb_neq. exact Hn. }
  assert (Eadj : forall r, apply_adjustments r (adjustments self) = ret r)
    by (intros r; destruct Ea as [-> | ->]; reflexivity).
  unfold Layer.render, Layer.resolve. rewrite Tl, Em, Et, El.
  change (default ""%string (Some name)) with name.
  unfold layers_getitem. rewrite Ec. cbv iota.
  wp_go.
  eapply wp_mono; [apply (img2rgba_run _ _ W)|].
  intros r h1 (out & -> & Hs & HB). cbv beta iota.
  wp_go; [injection Eg as -> | discriminate Eg].
  eapply wp_mono; [apply (img2rgba_run _ _ Wt)|].
  intros r h2 (top & -> & Hs2 & HT). cbv beta iota.
  wp_go. rewrite Eadj. wp_go.
  unfold Layer.combine. cbn [Layer.output_of Layer.layer_of Layer.color_of Layer.mask_of].
  set (sh := (snd (im_size input_img), fst (im_size input_img))).
  pose proof (image_arrays_geometry _ W) as GB. fold sh in GB.
  pose proof (image_arrays_geometry _ Wt) as GT. rewrite Esz in GT. fold sh in GT.
  assert (HB2 : holds h2 out (image_arrays input_img)).
  { destruct HB as (B0 & B1 & B2 & B3). repeat split; eapply lookup_weaken; eassumption. }
  eapply wp_mono.
  { eapply (blend_images_plain_run h2 (mk_raster true out) (mk_raster true top)
              (MaskSeq (mk_raster true top)) _ _ (image_arrays input_img) (image_arrays tile)
              (ch3 (image_arrays tile)) sh);
      [exact HB2 | exact HT
      | cbn; eexists; split; [apply HT|reflexivity]
      | exact GB | exact GT | apply GT | exact Ez | exact Eb]. }
  intros r h5 (o & -> & Hs5 & Ho). cbv beta iota.
  eapply wp_mono; [apply (rgba2img_run _ _ _ Ho)|].
  intros r h6 [-> ->]. split; [|etrans; [eassumption|]; etrans; eassumption].
  unfold arrays_image, plain_blend. cbn [ch0 ch1 ch2 ch3 image_arrays arr_map cells].
  rewrite <- !list_fmap_compose. rewrite !map3_zip_l, map3_zip_r.
  unfold wf_image in W, Wt. rewrite Esz in Wt.
  rewrite !(arr2img_grid (im_size input_img))
    by (rewrite length_zip_with, W, Wt; apply Nat.min_id).
  cbn [rbind]. unfold merge. cbn [ch0 ch1 ch2 ch3 band_size band_pixels].
  rewrite bool_decide_eq_true_2 by (repeat split; reflexivity).
  rewrite !map_zip_with, zip4_zip_with.
  reflexivity.
Qed.

(** X13. A layer that is a source only, with a nonzero opacity, no
    blend mode and no adjustment, whose tile has the size of the image it
    is given, returns an image of that size, each pixel of which depends on
    the pixel below, the source pixel at the same place and the opacity
    alone; with opacity one, every opaque pixel of the source is in the
    result as it is. *)
Theorem layer_render_source (self : layer) (config : Configuration) (input_img : image)
    (coord : Coordinate) (h : heap float32) (tile : image) :
  wf_image input_img -> source_only self config coord tile ->
  wf_image tile -> im_size tile = im_size input_img ->
  py_eq_zero (opacity self) = false -> truthy_name (blendmode self) = false ->
  wp (Layer.render self config input_img coord) h
     (fun r h' => exists img,
        r = Ok img /\ im_size img = im_size input_img
        /\ im_pixels img
           = zip_with (cover (opacity self)) (im_pixels input_img) (im_pixels tile)
        /\ (full_opacity (opacity self) ->
            forall i t, im_pixels tile !! i = Some t -> ch3 t = Byte.xff ->
                        im_pixels img !! i = Some t)).
Proof.
  intros W Hs Wt Esz Ez Eb.
  eapply wp_mono;
    [apply (layer_render_source_run self config input_img coord h tile); assumption|].
  intros r h' [-> _]. eexists. split; [reflexivity|]. split; [reflexivity|].
  split; [reflexivity|]. cbn [im_pixels].
  intros Hop i t Ht Ha.
  assert (Hp : is_Some (im_pixels input_img !! i)).
  { apply lookup_lt_is_Some. apply lookup_lt_Some in Ht.
    unfold wf_image in W, Wt. rewrite W, <- Esz, <- Wt. exact Ht. }
  destruct Hp as [p Hp].
  apply lookup_zip_with_Some. exists p, t.
  split; [symmetry; apply cover_opaque; assumption|]. split; assumption.
Qed.

Lemma layer_render_source_witness :
  let self := mk_layer (Some "base"%string) PyNone None (PyFloat (Py64.of_Z 1)) None None in
  let img := PIL_new (3, 3)%nat transparent in
  let tile := mk_image (3, 3)%nat (replicate 9 Fixture._ccc) in
  wp (Layer.render self Fixture.config img (mk_Coordinate 0 0 0)) ∅
     (fun r h' => exists out,
        r = Ok out /\ im_size out = im_size img
        /\ im_pixels out = zip_with (cover (opacity self)) (im_pixels img) (im_pixels tile)
        /\ (full_opacity (opacity self) ->
            forall i t, im_pixels tile !! i = Some t -> ch3 t = Byte.xff ->
                        im_pixels out !! i = Some t)).
Proof.
  intros self img tile.
  assert (W : wf_image img) by reflexivity.
  assert (Hn : "base"%string <> ""%string) by discriminate.
  assert (Hs : source_only self Fixture.config (mk_Coordinate 0 0 0) tile).
  { exists "base"%string, (Fixture.tinybitmap_layer (replicate 9 Fixture._ccc)).
    split; [reflexivity|]. split; [exact Hn|]. split; [reflexivity|]. split; [reflexivity|].
    split; [reflexivity|]. split; [reflexivity|]. left. reflexivity. }
  assert (Wt : wf_image tile) by reflexivity.
  exact (layer_render_source self Fixture.config img (mk_Coordinate 0 0 0) ∅ tile
           W Hs Wt eq_refl eq_refl eq_refl).
Defined.


(** ** Instances *)

Lemma layer_render_color_witness :
  let self := mk_layer None (PyStr "#ccc") None (PyFloat (Py64.of_Z 1)) None None in
  let img := PIL_new (3, 3)%nat transparent in
  let c := mk_rgba 204 204 204 255 in
  wp (Layer.render self Fixture.config img (mk_Coordinate 0 0 0)) ∅
     (fun r h' =>
        r = Ok (mk_image (im_size img) (map (paint (opacity self) c) (im_pixels img)))
        /\ (full_opacity (opacity self) -> opaque_color c ->
            r = Ok (solid img (rgba_map ubyte_of_Z c)))).
Proof.
  intros self img c.
  assert (H1 : wf_image img) by reflexivity.
  assert (H2 : color_only self) by (split; reflexivity).
  assert (H3 : make_color (colorname self) = Ok c) by reflexivity.
  assert (H4 : py_eq_zero (opacity self) = false) by reflexivity.
  assert (H5 : truthy_name (blendmode self) = false) by reflexivity.
  exact (layer_render_color self Fixture.config img (mk_Coordinate 0 0 0) ∅ c H1 H2 H3 H4 H5).
Defined.

Lemma stack_render_opaque_color_witness :
  let self := mk_layer None (PyStr "#ccc") None (PyFloat (Py64.of_Z 1)) None None in
  let c := mk_rgba 204 204 204 255 in
  wp (renderTile (Stack [Layer self]) Fixture.config 3 3 (mk_Coordinate 0 0 0)) ∅
     (fun r h' => r = Ok (PIL_new (3, 3)%nat (rgba_map ubyte_of_Z c)) /\ ∅ ⊆ h').
Proof.
  intros self c.
  pose proof (stack_render_opaque_color self Fixture.config (mk_Coordinate 0 0 0) ∅ c) as K.
  assert (H1 : color_only self) by (split; reflexivity).
  assert (H2 : make_color (colorname self) = Ok c) by reflexivity.
  assert (H3 : opaque_color c) by (split; [repeat constructor; discriminate | reflexivity]).
  assert (H4 : full_opacity (opacity self)) by (right; reflexivity).
  assert (H5 : truthy_name (blendmode self) = false) by reflexivity.
  specialize (K H1 H2 H3 H4 H5).
  destruct K as [_ K].
  exact (K 3%nat 3%nat).
Defined.


Lemma layer_render_curves_plain_witness :
  let self :=
    mk_layer (Some "base"%string) PyNone None (PyFloat (Py64.of_Z 1)) None
      (Some [("curves"%string, [0; 128; 255])]) in
  wp (Layer.render self Fixture.config (PIL_new (3, 3)%nat transparent) (mk_Coordinate 0 0 0))
     ∅
     (fun r h' => r = Err TypeError /\ ∅ ⊆ h').
Proof.
  intros self.
  assert (W : wf_image (PIL_new (3, 3)%nat transparent)) by reflexivity.
  assert (Hn : "base"%string <> ""%string) by discriminate.
  assert (Wt : wf_image (mk_image (3, 3)%nat (replicate 9 Fixture._ccc))) by reflexivity.
  assert (N : ~ degenerate 0 128 255)
    by (intros [D | [D | D]]; vm_compute in D; discriminate D).
  exact (layer_render_curves_plain self Fixture.config (PIL_new (3, 3)%nat transparent)
           (mk_Coordinate 0 0 0) ∅ "base"%string
           (Fixture.tinybitmap_layer (replicate 9 Fixture._ccc))
           (mk_image (3, 3)%nat (replicate 9 Fixture._ccc)) 0 128 255
           W eq_refl Hn eq_refl eq_refl Wt eq_refl eq_refl eq_refl N eq_refl eq_refl).
Defined.

Lemma img2rgba_rgba2img_witness :
  wp (let* rgba := _img2rgba (mk_image (3, 3)%nat (replicate 9 Fixture._ccc)) in
      _rgba2img rgba) ∅
     (fun r h' => r = Ok (mk_image (3, 3)%nat (replicate 9 Fixture._ccc)) /\ ∅ ⊆ h').
Proof.
  assert (W : wf_image (mk_image (3, 3)%nat (replicate 9 Fixture._ccc))) by reflexivity.
  exact (img2rgba_rgba2img (mk_image (3, 3)%nat (replicate 9 Fixture._ccc)) ∅ W).
Defined.

Lemma layer_render_opacity_zero_witness :
  let self := mk_layer None (PyStr "#ccc") None (PyInt 0) (Some "multiply"%string) None in
  let img := mk_image (3, 3)%nat (replicate 9 Fixture._999) in
  wp (Layer.render self Fixture.config img (mk_Coordinate 0 0 0)) ∅
     (fun r h' => r = Ok img /\ ∅ ⊆ h').
Proof.
  intros self img.
  assert (W : wf_image img) by reflexivity.
  assert (Hs : color_only self) by (split; reflexivity).
  assert (Ec : make_color (colorname self) = Ok (mk_rgba 204 204 204 255)) by reflexivity.
  exact (layer_render_opacity_zero self Fixture.config img (mk_Coordinate 0 0 0) ∅ _
           W Hs Ec eq_refl).
Defined.

Lemma layer_render_missing_source_witness :
  let self := mk_layer (Some "rivers"%string) (PyStr "red") None (PyInt 1) None None in
  let img := PIL_new (3, 3)%nat transparent in
  wp (Layer.render self Fixture.config img (mk_Coordinate 0 0 0)) ∅
     (fun r h' => r = Err (KeyError "rivers") /\ ∅ ⊆ h').
Proof.
  intros self img.
  assert (W : wf_image img) by reflexivity.
  assert (Hn : "rivers"%string <> ""%string) by discriminate.
  exact (layer_render_missing_source self Fixture.config img (mk_Coordinate 0 0 0) ∅
           "rivers"%string W eq_refl Hn eq_refl).
Defined.

Lemma stack_render_size_witness :
  let layers := [Fixture.json_layer None (PyStr "#ccc") None] in
  let img := PIL_new (3, 3)%nat transparent in
  let out := PIL_new (3, 3)%nat Fixture._ccc in
  im_size out = im_size img
  /\ length (im_pixels out) = length (im_pixels img)
  /\ (wf_image img -> wf_image out).
Proof.
  intros layers img out.
  assert (R : Stack.render layers Fixture.config img (mk_Coordinate 0 0 0) ∅
              = (Ok out, (Stack.render layers Fixture.config img (mk_Coordinate 0 0 0) ∅).2)).
  { rewrite (surjective_pairing (Stack.render layers Fixture.config img _ ∅)) at 1.
    f_equal; try (vm_compute; reflexivity). }
  exact (stack_render_size layers Fixture.config img (mk_Coordinate 0 0 0) ∅ _ out R).
Defined.
